(** * RuneBird: token-bucket limiter, retry queue and scheduler

    A shallow embedding of [internal/rate/rate.go] and of the scheduler
    package ([Scheduler], [Schedule], [processTasks], [processTask]).

    Conventions.
    - A [time.Time] instant is an integer number of nanoseconds ([Z]); a
      [time.Duration] is an integer number of nanoseconds as in Go.
    - Every call of [time.Now()] in the source is an explicit argument of the
      embedded function, so that one call of [CanSend] takes the three clock
      readings its body takes.
    - The bucket of [golang.org/x/time/rate] is modelled twice.  [XRate64]
      follows the library in binary64, operation by operation, as the code
      computes.  [XRate] keeps the balance exactly: a balance is an integer
      number of [tokenUnit]-ths of a token, the amount that a rate of one
      event per hour refills in one nanosecond; it models the truncation of
      a duration to whole nanoseconds but not the rounding of [float64].
      The facts about whole tokens, the accrual and the cost of an item are
      proved on [XRate]; what turns on the arithmetic at the scale of one
      nanosecond of refill (when [CanSend] grants, when [ConsumeToken]
      blocks) is settled on [XRate64].
    - Each embedded method is one step on the state of its component: the
      mutexes are left out, and so are interleavings inside a method.  The
      two places where a goroutine blocks are explicit: the final [select]
      of [WaitN] and the [select] of the background loops. *)

From Stdlib Require Import ZArith Lia Ascii Floats.
From Stdlib Require Uint63.
From stdpp Require Import base list strings gmap pretty.

#[local] Open Scope Z_scope.

(** ** Model of the dependency [golang.org/x/time/rate]

    [rate.go] delegates the bucket to [rate.Limiter] of the x/time module,
    which is not part of the repository.  The functions below follow that
    library's [advance], [reserveN], [DelayFrom], [CancelAt] and [wait], for a
    finite positive limit (New rejects [PerHour <= 0], so the library's
    branches for [Inf] and for a zero limit are never taken). *)
Module XRate.

(** One token, in balance units: 3600 s/h * 10^9 ns/s. *)
Definition tokenUnit : Z := 3600 * 1000000000.

(** [math.MaxInt64], also the library's [InfDuration]. *)
Definition MaxInt64 : Z := 9223372036854775807.
Definition InfDuration : Z := MaxInt64.

(** [limit] is kept as events per hour: the source builds the limiter
    with [rate.Limit(float64(cfg.PerHour) / 3600.0)] events per second. *)
Record Limiter := mkLimiter {
  limit : Z;
  burst : Z;
  tokens : Z;
  last : Z;
  lastEvent : Z
}.

Record Reservation := mkReservation {
  ok : bool;
  r_tokens : Z;
  timeToAct : Z;
  r_limit : Z
}.

(** [NewLimiter]: a full bucket, the time fields at the zero instant. *)
Definition NewLimiter (perHour b : Z) : Limiter :=
  {| limit := perHour; burst := b; tokens := b * tokenUnit;
     last := 0; lastEvent := 0 |}.

(** [d.Seconds() * float64(limit)], in balance units. *)
Definition tokensFromDuration (lim d : Z) : Z :=
  if lim <=? 0 then 0 else d * lim.

(** [(tokens / limit) * 1e9] converted to a [time.Duration]: the
    conversion truncates toward zero, and the library caps the value at
    [InfDuration] before converting. *)
Definition durationFromTokens (lim tk : Z) : Z :=
  if lim <=? 0 then InfDuration
  else if MaxInt64 * lim <? tk then InfDuration
  else tk ÷ lim.

(** The balance [advance] computes for time [t]: accrual since [last],
    capped at [burst]. *)
Definition advance (t : Z) (l : Limiter) : Z :=
  let last' := if t <? last l then t else last l in
  let elapsed := t - last' in
  let delta := tokensFromDuration (limit l) elapsed in
  let tk := tokens l + delta in
  if burst l * tokenUnit <? tk then burst l * tokenUnit else tk.

(** The [waitDuration] of [reserveN]: how long until the balance left
    after taking [n] tokens at [t] is back at zero. *)
Definition waitDuration (t n : Z) (l : Limiter) : Z :=
  let tk := advance t l - n * tokenUnit in
  if tk <? 0 then durationFromTokens (limit l) (- tk) else 0.

Definition reserveN (t n maxFutureReserve : Z) (l : Limiter)
  : Reservation * Limiter :=
  let tk := advance t l - n * tokenUnit in
  let waitDuration := waitDuration t n l in
  if (n <=? burst l) && (waitDuration <=? maxFutureReserve) then
    ({| ok := true; r_tokens := n; timeToAct := t + waitDuration;
        r_limit := limit l |},
     {| limit := limit l; burst := burst l; tokens := tk; last := t;
        lastEvent := t + waitDuration |})
  else
    ({| ok := false; r_tokens := 0; timeToAct := 0; r_limit := limit l |}, l).

Definition ReserveN (t n : Z) (l : Limiter) : Reservation * Limiter :=
  reserveN t n InfDuration l.

Definition DelayFrom (r : Reservation) (t : Z) : Z :=
  if negb (ok r) then InfDuration
  else
    let delay := timeToAct r - t in
    if delay <? 0 then 0 else delay.

Definition CancelAt (r : Reservation) (t : Z) (l : Limiter) : Limiter :=
  if negb (ok r) then l
  else if (r_tokens r =? 0) || (timeToAct r <? t) then l
  else
    let restoreTokens :=
      r_tokens r * tokenUnit
      - tokensFromDuration (r_limit r) (lastEvent l - timeToAct r) in
    if restoreTokens <=? 0 then l
    else
      let tk := advance t l + restoreTokens in
      let tk := if burst l * tokenUnit <? tk then burst l * tokenUnit else tk in
      let lastEvent' :=
        if timeToAct r =? lastEvent l then
          let prevEvent :=
            timeToAct r
            + durationFromTokens (r_limit r) (- (r_tokens r * tokenUnit)) in
          if negb (prevEvent <? t) then prevEvent else lastEvent l
        else lastEvent l in
      {| limit := limit l; burst := burst l; tokens := tk; last := t;
         lastEvent := lastEvent' |}.

(** Errors of [WaitN]. *)
Inductive WaitError :=
| ErrExceedsBurst
| ErrCanceled
| ErrDeadline.

(** What [wait] has done when it reaches its final [select]: it has
    returned, or it is blocked on the timer with reservation [r]. *)
Inductive WaitState :=
| Returned (e : option WaitError) (l : Limiter)
| Blocked (r : Reservation) (l : Limiter).

(** [wait] up to the final [select]; the context carries no deadline, so
    the wait limit is [InfDuration].  [cancelled] tells whether the context
    is already cancelled. *)
Definition wait_enter (cancelled : bool) (n t : Z) (l : Limiter) : WaitState :=
  if burst l <? n then Returned (Some ErrExceedsBurst) l
  else if cancelled then Returned (Some ErrCanceled) l
  else
    let '(r, l1) := reserveN t n InfDuration l in
    if negb (ok r) then Returned (Some ErrDeadline) l
    else if DelayFrom r t =? 0 then Returned None l1
    else Blocked r l1.

(** The two branches of the final [select]: the timer fires, or the
    context is cancelled and the reservation is cancelled at the clock
    reading [tc]. *)
Definition wait_timer (l : Limiter) : option WaitError * Limiter :=
  (None, l).

Definition wait_cancelled (r : Reservation) (tc : Z) (l : Limiter)
  : option WaitError * Limiter :=
  (Some ErrCanceled, CancelAt r tc l).

(** [WaitN] run without another goroutine touching the limiter while it
    is blocked.  [interrupt = Some tc]: the context is cancelled during
    the wait and [Cancel] reads the clock at [tc]. *)
Definition WaitN (cancelled : bool) (interrupt : option Z) (n t : Z)
    (l : Limiter)
  : option WaitError * Limiter :=
  match wait_enter cancelled n t l with
  | Returned e l' => (e, l')
  | Blocked r l1 =>
      match interrupt with
      | Some tc => wait_cancelled r tc l1
      | None => wait_timer l1
      end
  end.

End XRate.

(** ** The same library in binary64

    The library keeps the balance in a [float64] and converts between
    tokens and durations in [float64].  The functions below are those of
    [XRate] with that arithmetic, on Rocq's primitive binary64 floats,
    which round to nearest, ties to even, as Go's do. *)
Module XRate64.

Definition MinInt64 : Z := - 9223372036854775808.

(** [float64(z)] of an [int64] above [math.MinInt64]. *)
Definition float64 (z : Z) : float :=
  if z <? 0 then PrimFloat.opp (PrimFloat.of_uint63 (Uint63.of_Z (- z)))
  else PrimFloat.of_uint63 (Uint63.of_Z z).

(** The integer part of a finite float, toward zero. *)
Definition truncate (f : float) : Z :=
  match Prim2SF f with
  | S754_finite s m e =>
      let a := if 0 <=? e then Z.pos m * 2 ^ e else Z.pos m / 2 ^ (- e) in
      if s then - a else a
  | _ => 0
  end.

(** Neither an infinity nor a NaN. *)
Definition is_finite (f : float) : bool :=
  negb (PrimFloat.is_nan f || PrimFloat.is_infinity f).

(** The conversion [int64(f)], also [time.Duration(f)]: truncation
    toward zero.  Outside the [int64] range Go leaves the result to the
    implementation; the value of amd64, [math.MinInt64], is taken. *)
Definition int64 (f : float) : Z :=
  let z := truncate f in
  if is_finite f && (MinInt64 <=? z) && (z <=? XRate.MaxInt64) then z
  else MinInt64.

(** [d.Seconds()]: the whole seconds and the remaining nanoseconds are
    converted apart. *)
Definition Seconds (d : Z) : float :=
  (float64 (d ÷ 1000000000) + float64 (Z.rem d 1000000000) / 1e9)%float.

(** [limit] is in events per second, as the library has it. *)
Record Limiter := mkLimiter {
  limit : float;
  burst : Z;
  tokens : float;
  last : Z;
  lastEvent : Z
}.

Record Reservation := mkReservation {
  ok : bool;
  r_tokens : Z;
  timeToAct : Z;
  r_limit : float
}.

Definition NewLimiter (r : float) (b : Z) : Limiter :=
  {| limit := r; burst := b; tokens := float64 b; last := 0; lastEvent := 0 |}.

(** [d.Seconds() * float64(limit)] *)
Definition tokensFromDuration (lim : float) (d : Z) : float :=
  if (lim <=? 0)%float then 0%float else (Seconds d * lim)%float.

(** [(tokens / float64(limit)) * float64(time.Second)], capped at
    [InfDuration] and converted to a [time.Duration]. *)
Definition durationFromTokens (lim tk : float) : Z :=
  if (lim <=? 0)%float then XRate.InfDuration
  else
    let duration := (tk / lim * 1e9)%float in
    if (float64 XRate.MaxInt64 <? duration)%float then XRate.InfDuration
    else int64 duration.

Definition advance (t : Z) (l : Limiter) : float :=
  let last' := if t <? last l then t else last l in
  let elapsed := t - last' in
  let delta := tokensFromDuration (limit l) elapsed in
  let tk := (tokens l + delta)%float in
  if (float64 (burst l) <? tk)%float then float64 (burst l) else tk.

(** The balance left by [reserveN] after taking [n] tokens at [t]. *)
Definition remaining (t n : Z) (l : Limiter) : float :=
  (advance t l - float64 n)%float.

Definition waitDuration (t n : Z) (l : Limiter) : Z :=
  let tk := remaining t n l in
  if (tk <? 0)%float then durationFromTokens (limit l) (- tk)%float else 0.

Definition reserveN (t n maxFutureReserve : Z) (l : Limiter)
  : Reservation * Limiter :=
  let tk := remaining t n l in
  let waitDuration := waitDuration t n l in
  if (n <=? burst l) && (waitDuration <=? maxFutureReserve) then
    ({| ok := true; r_tokens := n; timeToAct := t + waitDuration;
        r_limit := limit l |},
     {| limit := limit l; burst := burst l; tokens := tk; last := t;
        lastEvent := t + waitDuration |})
  else
    ({| ok := false; r_tokens := 0; timeToAct := 0; r_limit := limit l |}, l).

Definition ReserveN (t n : Z) (l : Limiter) : Reservation * Limiter :=
  reserveN t n XRate.InfDuration l.

Definition DelayFrom (r : Reservation) (t : Z) : Z :=
  if negb (ok r) then XRate.InfDuration
  else
    let delay := timeToAct r - t in
    if delay <? 0 then 0 else delay.

Definition CancelAt (r : Reservation) (t : Z) (l : Limiter) : Limiter :=
  if negb (ok r) then l
  else if (r_tokens r =? 0) || (timeToAct r <? t) then l
  else
    let restoreTokens :=
      (float64 (r_tokens r)
       - tokensFromDuration (r_limit r) (lastEvent l - timeToAct r))%float in
    if (restoreTokens <=? 0)%float then l
    else
      let tk := (advance t l + restoreTokens)%float in
      let tk :=
        if (float64 (burst l) <? tk)%float then float64 (burst l) else tk in
      let lastEvent' :=
        if timeToAct r =? lastEvent l then
          let prevEvent :=
            timeToAct r
            + durationFromTokens (r_limit r) (float64 (- r_tokens r)) in
          if negb (prevEvent <? t) then prevEvent else lastEvent l
        else lastEvent l in
      {| limit := limit l; burst := burst l; tokens := tk; last := t;
         lastEvent := lastEvent' |}.

Inductive WaitState :=
| Returned (e : option XRate.WaitError) (l : Limiter)
| Blocked (r : Reservation) (l : Limiter).

Definition wait_enter (cancelled : bool) (n t : Z) (l : Limiter) : WaitState :=
  if burst l <? n then Returned (Some XRate.ErrExceedsBurst) l
  else if cancelled then Returned (Some XRate.ErrCanceled) l
  else
    let '(r, l1) := reserveN t n XRate.InfDuration l in
    if negb (ok r) then Returned (Some XRate.ErrDeadline) l
    else if DelayFrom r t =? 0 then Returned None l1
    else Blocked r l1.

Definition wait_timer (l : Limiter) : option XRate.WaitError * Limiter :=
  (None, l).

Definition wait_cancelled (r : Reservation) (tc : Z) (l : Limiter)
  : option XRate.WaitError * Limiter :=
  (Some XRate.ErrCanceled, CancelAt r tc l).

(** [WaitN], as in [XRate]: [interrupt = Some tc] when the context is
    cancelled during the wait and [Cancel] reads the clock at [tc]. *)
Definition WaitN (cancelled : bool) (interrupt : option Z) (n t : Z)
    (l : Limiter)
  : option XRate.WaitError * Limiter :=
  match wait_enter cancelled n t l with
  | Returned e l' => (e, l')
  | Blocked r l1 =>
      match interrupt with
      | Some tc => wait_cancelled r tc l1
      | None => wait_timer l1
      end
  end.


End XRate64.

(** An entry written through a component's [*logger.Logger]: the level,
    the message and the value of the zap field that names the work (the
    recipients, or the task identifier); the other fields are left out. *)
Inductive LogLevel := LevelInfo | LevelError.

Record LogEntry := mkLog {
  log_level : LogLevel;
  log_msg : string;
  log_field : list string
}.

(** The [select] of the two background loops has two cases. *)
Inductive SelectCase :=
| CaseDone
| CaseTick.

(** The case a [select] takes: [ctxDone] tells whether [<-ctx.Done()] is
    ready, [tickReady] whether [<-ticker.C] is; when both are ready Go picks
    one of them at random, here [pick]; when none is ready the goroutine
    stays blocked ([None]). *)
Definition select_case (ctxDone tickReady : bool) (pick : SelectCase)
  : option SelectCase :=
  match ctxDone, tickReady with
  | true, true => Some pick
  | true, false => Some CaseDone
  | false, true => Some CaseTick
  | false, false => None
  end.

(** ** Package [rate]: [internal/rate/rate.go] *)
Module Rate.

Record EmailTask := mkEmailTask {
  Recipients : list string;
  Subject : string;
  Body : string;
  RetryAt : Z
}.

(** The [Limiter] struct.  [logger] is the list of entries written
    through [l.logger], oldest first; [ctxDone] tells whether [l.cancel]
    has been called; [loops] counts the goroutines inside
    [processQueue].  The mutex is left out: each embedded method is one
    atomic step. *)
Record Limiter := mkLimiter {
  limiter : XRate.Limiter;
  queue : list EmailTask;
  logger : list LogEntry;
  isRunning : bool;
  ctxDone : bool;
  loops : nat
}.

Definition set_limiter (x : XRate.Limiter) (l : Limiter) : Limiter :=
  mkLimiter x (queue l) (logger l) (isRunning l) (ctxDone l) (loops l).

Definition set_queue (q : list EmailTask) (l : Limiter) : Limiter :=
  mkLimiter (limiter l) q (logger l) (isRunning l) (ctxDone l) (loops l).

Definition log_Info (msg : string) (field : list string) (l : Limiter)
  : Limiter :=
  mkLimiter (limiter l) (queue l) (logger l ++ [mkLog LevelInfo msg field])
            (isRunning l) (ctxDone l) (loops l).

Inductive error :=
| ErrInvalidConfig (perHour b : Z).

(** [New]: the error of an invalid configuration, or a stopped limiter
    with a full bucket and an empty queue. *)
Definition New (perHour b : Z) : error + Limiter :=
  if (perHour <=? 0) || (b <=? 0) then inl (ErrInvalidConfig perHour b)
  else inr (mkLimiter (XRate.NewLimiter perHour b) [] [] false false 0).

Definition Start (l : Limiter) : Limiter :=
  if isRunning l then l
  else
    log_Info "Rate limiter queue processing started" []
      (mkLimiter (limiter l) (queue l) (logger l) true (ctxDone l)
                 (S (loops l))).

Definition Stop (l : Limiter) : Limiter :=
  if negb (isRunning l) then l
  else
    log_Info "Rate limiter queue processing stopped" []
      (mkLimiter (limiter l) (queue l) (logger l) false true (loops l)).

(** [CanSend].  [t1] is the [time.Now()] passed to [ReserveN], [t2] the
    one read by [Delay] and [t3] the one read by [Cancel]. *)
Definition CanSend (t1 t2 t3 : Z) (l : Limiter) : bool * Limiter :=
  let '(reservation, lim1) := XRate.ReserveN t1 1 (limiter l) in
  if XRate.ok reservation then
    if XRate.DelayFrom reservation t2 <=? 0 then (true, set_limiter lim1 l)
    else (false, set_limiter (XRate.CancelAt reservation t3 lim1) l)
  else (false, set_limiter lim1 l).


(** [ConsumeToken]: [WaitN] on the limiter's own context. *)
Definition ConsumeToken (interrupt : option Z) (t : Z) (l : Limiter)
  : option XRate.WaitError * Limiter :=
  let '(e, lim1) := XRate.WaitN (ctxDone l) interrupt 1 t (limiter l) in
  (e, set_limiter lim1 l).

(** The fixed retry delay, [time.Second * 10]. *)
Definition retryDelay : Z := 10 * 1000000000.

Definition QueueEmail (now : Z) (recipients : list string)
    (subject body : string) (l : Limiter) : Limiter :=
  let task := mkEmailTask recipients subject body (now + retryDelay) in
  log_Info "Email queued due to rate limit" recipients
    (set_queue (queue l ++ [task]) l).

(** [now.After(task.RetryAt)] *)
Definition ready_at (now : Z) (task : EmailTask) : bool := RetryAt task <? now.

(** The loop of [GetQueuedEmails], with its two accumulators. *)
Definition split_ready (now : Z) (q : list EmailTask)
  : list EmailTask * list EmailTask :=
  foldl (fun acc task =>
           if ready_at now task then (acc.1 ++ [task], acc.2)
           else (acc.1, acc.2 ++ [task]))
        ([], []) q.

Definition GetQueuedEmails (now : Z) (l : Limiter)
  : list EmailTask * Limiter :=
  let '(ready, remaining) := split_ready now (queue l) in
  (ready, set_queue remaining l).

(** The clock readings taken while one item of a loop is handled: the
    three of [CanSend], the one of [WaitN] and the one of [QueueEmail];
    and what happens to a blocked [WaitN]: [ck_interrupt = Some tc] when
    [Stop] cancels the context during the wait, [Cancel] reading the
    clock at [tc], and [None] when the wait ends with its timer. *)
Record ItemClock := mkItemClock {
  ck_reserve : Z;
  ck_delay : Z;
  ck_cancel : Z;
  ck_wait : Z;
  ck_queue : Z;
  ck_interrupt : option Z
}.

(** The body of the [for _, task := range readyTasks] loop of
    [processQueue].  The result of [WaitN] is discarded as in the
    source. *)
Definition processItem (ck : ItemClock) (task : EmailTask) (l : Limiter)
  : Limiter :=
  let '(granted, l1) :=
    CanSend (ck_reserve ck) (ck_delay ck) (ck_cancel ck) l in
  if granted then
    let l2 := log_Info "Processing queued email" (Recipients task) l1 in
    let '(_, lim3) :=
      XRate.WaitN (ctxDone l2) (ck_interrupt ck) 1 (ck_wait ck) (limiter l2) in
    set_limiter lim3 l2
  else
    QueueEmail (ck_queue ck) (Recipients task) (Subject task) (Body task) l1.

Fixpoint processItems (clk : nat -> ItemClock) (i : nat)
    (readyTasks : list EmailTask) (l : Limiter) : Limiter :=
  match readyTasks with
  | [] => l
  | task :: rest => processItems clk (S i) rest (processItem (clk i) task l)
  end.

Definition exit_loop (l : Limiter) : Limiter :=
  mkLimiter (limiter l) (queue l) (logger l) (isRunning l) (ctxDone l)
            (pred (loops l)).

(** How many entries of a log report an item handled by the drain loop. *)
Definition processed_count (entries : list LogEntry) : nat :=
  length (filter (fun e => log_msg e = "Processing queued email") entries).

(** The [case <-ticker.C] branch: [now] is read by [GetQueuedEmails],
    [clk i] gives the readings for the [i]-th ready item. *)
Definition processQueue_tick (now : Z) (clk : nat -> ItemClock) (l : Limiter)
  : Limiter :=
  if negb (isRunning l) then exit_loop l
  else
    let '(readyTasks, l1) := GetQueuedEmails now l in
    processItems clk 0 readyTasks l1.

(** One pass of a [processQueue] goroutine through its [select]; without
    such a goroutine nothing happens. *)
Definition processQueue_select (tickReady : bool) (pick : SelectCase)
    (now : Z) (clk : nat -> ItemClock) (l : Limiter) : Limiter :=
  match loops l with
  | O => l
  | S _ =>
      match select_case (ctxDone l) tickReady pick with
      | Some CaseDone => exit_loop l
      | Some CaseTick => processQueue_tick now clk l
      | None => l
      end
  end.

End Rate.

(** ** Package [rate] on the binary64 bucket

    [New], [CanSend] and [ConsumeToken] as in [Rate], the [*rate.Limiter]
    being the one of [XRate64]. *)
Module Rate64.

Record Limiter := mkLimiter {
  limiter : XRate64.Limiter;
  queue : list Rate.EmailTask;
  logger : list LogEntry;
  isRunning : bool;
  ctxDone : bool;
  loops : nat
}.

Definition set_limiter (x : XRate64.Limiter) (l : Limiter) : Limiter :=
  mkLimiter x (queue l) (logger l) (isRunning l) (ctxDone l) (loops l).

(** [New]: the limit is [float64(cfg.PerHour) / 3600.0] events per
    second. *)
Definition New (perHour b : Z) : Rate.error + Limiter :=
  if (perHour <=? 0) || (b <=? 0) then inl (Rate.ErrInvalidConfig perHour b)
  else
    let ratePerSecond := (XRate64.float64 perHour / 3600)%float in
    inr (mkLimiter (XRate64.NewLimiter ratePerSecond b) [] [] false false 0).

Definition CanSend (t1 t2 t3 : Z) (l : Limiter) : bool * Limiter :=
  let '(reservation, lim1) := XRate64.ReserveN t1 1 (limiter l) in
  if XRate64.ok reservation then
    if XRate64.DelayFrom reservation t2 <=? 0 then (true, set_limiter lim1 l)
    else (false, set_limiter (XRate64.CancelAt reservation t3 lim1) l)
  else (false, set_limiter lim1 l).

Definition ConsumeToken (interrupt : option Z) (t : Z) (l : Limiter)
  : option XRate.WaitError * Limiter :=
  let '(e, lim1) := XRate64.WaitN (ctxDone l) interrupt 1 t (limiter l) in
  (e, set_limiter lim1 l).


End Rate64.

(** A [time.Time] as the scheduler stores it: the instant and the name of
    its location.  [UTC] changes the location only. *)
Record Time := mkTime {
  instant : Z;
  location : string
}.

Definition UTC (t : Time) : Time := mkTime (instant t) "UTC".

(** ** Package [scheduler] *)
Module Scheduler.

Record ScheduledTask (Data : Type) := mkScheduledTask {
  ID : string;
  Template : string;
  Recipients : list string;
  TaskData : Data;
  SendAt : Time
}.
Arguments mkScheduledTask {Data}.
Arguments ID {Data}.
Arguments Template {Data}.
Arguments Recipients {Data}.
Arguments TaskData {Data}.
Arguments SendAt {Data}.

(** The [Scheduler] struct.  [templates] and [sender] are the
    collaborators behind [s.templates.Render] (the body and the subject,
    or [None] for an error) and [s.sender.Send] ([true] for a nil
    error); [rateLimiter] is the state of the shared limiter; [logger],
    [ctxDone] and [loops] are as in [Rate.Limiter]. *)
Record Scheduler (Data : Type) := mkScheduler {
  tasks : gmap string (ScheduledTask Data);
  logger : list LogEntry;
  sender : list string -> string -> string -> bool;
  templates : string -> Data -> option (string * string);
  rateLimiter : Rate.Limiter;
  isRunning : bool;
  ctxDone : bool;
  loops : nat
}.
Arguments mkScheduler {Data}.
Arguments tasks {Data}.
Arguments logger {Data}.
Arguments sender {Data}.
Arguments templates {Data}.
Arguments rateLimiter {Data}.
Arguments isRunning {Data}.
Arguments ctxDone {Data}.
Arguments loops {Data}.

Inductive error :=
| ErrTaskExists (id : string).

(** How a call of [processTask] ended. *)
Inductive Outcome :=
| RenderFailed
| Sent
| SendFailed
| Deferred.

Section WithData.
Context {Data : Type}.
Implicit Types (s : Scheduler Data) (task : ScheduledTask Data).

Definition set_tasks (m : gmap string (ScheduledTask Data)) s
  : Scheduler Data :=
  mkScheduler m (logger s) (sender s) (templates s) (rateLimiter s)
              (isRunning s) (ctxDone s) (loops s).

Definition set_rateLimiter (rl : Rate.Limiter) s : Scheduler Data :=
  mkScheduler (tasks s) (logger s) (sender s) (templates s) rl
              (isRunning s) (ctxDone s) (loops s).

Definition log (lv : LogLevel) (msg : string) (field : list string) s
  : Scheduler Data :=
  mkScheduler (tasks s) (logger s ++ [mkLog lv msg field]) (sender s)
              (templates s) (rateLimiter s) (isRunning s) (ctxDone s)
              (loops s).

Definition New (sender : list string -> string -> string -> bool)
    (templates : string -> Data -> option (string * string))
    (rateLimiter : Rate.Limiter) : Scheduler Data :=
  mkScheduler ∅ [] sender templates rateLimiter false false 0.

(** [Start]: [go s.processTasks()] adds one goroutine to [loops]. *)
Definition Start s : Scheduler Data :=
  if isRunning s then s
  else
    log LevelInfo "Scheduler started" []
      (mkScheduler (tasks s) (logger s) (sender s) (templates s)
                   (rateLimiter s) true (ctxDone s) (S (loops s))).

(** [Stop]: clears the flag and calls [s.cancel()]. *)
Definition Stop s : Scheduler Data :=
  if negb (isRunning s) then s
  else
    log LevelInfo "Scheduler stopped" []
      (mkScheduler (tasks s) (logger s) (sender s) (templates s)
                   (rateLimiter s) false true (loops s)).

Definition Schedule (id template : string) (recipients : list string)
    (data : Data) (sendAt : Time) s : option error * Scheduler Data :=
  match tasks s !! id with
  | Some _ => (Some (ErrTaskExists id), s)
  | None =>
      let sendAt := UTC sendAt in
      let task := mkScheduledTask id template recipients data sendAt in
      (None,
       log LevelInfo "Scheduled email task" [id]
         (set_tasks (<[id := task]> (tasks s)) s))
  end.

Definition processTask (ck : Rate.ItemClock) (id : string) task s
  : Outcome * Scheduler Data :=
  let s := log LevelInfo "Processing scheduled email" [id] s in
  match templates s (Template task) (TaskData task) with
  | None =>
      (RenderFailed,
       log LevelError "Failed to render template for scheduled email"
         [id] s)
  | Some (body, subject) =>
      let subject :=
        if decide (subject = "") then
          "Scheduled email from RuneBird (" +:+ Template task +:+ ")"
        else subject in
      let '(granted, rl) :=
        Rate.CanSend (Rate.ck_reserve ck) (Rate.ck_delay ck)
          (Rate.ck_cancel ck) (rateLimiter s) in
      if granted then
        let s := set_rateLimiter rl s in
        if sender s (Recipients task) subject body then (Sent, s)
        else
          (SendFailed,
           log LevelError "Failed to send scheduled email" [id] s)
      else
        let rl := Rate.QueueEmail (Rate.ck_queue ck) (Recipients task)
                    subject body rl in
        (Deferred,
         log LevelInfo "Scheduled email queued due to rate limit" [id]
           (set_rateLimiter rl s))
  end.

(** [now.After(task.SendAt) || now.Equal(task.SendAt)] *)
Definition due (now : Z) task : bool := instant (SendAt task) <=? now.

(** The [for id, task := range s.tasks] loop.  [order] is the order
    in which the iteration visits the identifiers; the accumulator
    holds [toDelete] and the calls of [processTask] made so far. *)
Fixpoint visit (now : Z) (clk : string -> Rate.ItemClock)
    (order : list string) (toDelete : list string)
    (calls : list (string * Outcome)) s
  : list string * list (string * Outcome) * Scheduler Data :=
  match order with
  | [] => (toDelete, calls, s)
  | id :: rest =>
      match tasks s !! id with
      | Some task =>
          if due now task then
            let '(o, s') := processTask (clk id) id task s in
            visit now clk rest (toDelete ++ [id]) (calls ++ [(id, o)]) s'
          else visit now clk rest toDelete calls s
      | None => visit now clk rest toDelete calls s
      end
  end.

Definition exit_loop s : Scheduler Data :=
  mkScheduler (tasks s) (logger s) (sender s) (templates s)
              (rateLimiter s) (isRunning s) (ctxDone s) (pred (loops s)).

(** The [case <-ticker.C] branch of [processTasks]; the result lists
    the calls of [processTask] in the order they were made. *)
Definition processTasks_tick (now : Z) (clk : string -> Rate.ItemClock)
    (order : list string) s : list (string * Outcome) * Scheduler Data :=
  if negb (isRunning s) then ([], exit_loop s)
  else
    let '(toDelete, calls, s') := visit now clk order [] [] s in
    (calls, set_tasks (foldl (fun m id => delete id m) (tasks s') toDelete) s').

(** One pass of a [processTasks] goroutine through its [select];
    without such a goroutine nothing happens. *)
Definition processTasks_select (tickReady : bool) (pick : SelectCase)
    (now : Z) (clk : string -> Rate.ItemClock) (order : list string) s
  : list (string * Outcome) * Scheduler Data :=
  match loops s with
  | O => ([], s)
  | S _ =>
      match select_case (ctxDone s) tickReady pick with
      | Some CaseDone => ([], exit_loop s)
      | Some CaseTick => processTasks_tick now clk order s
      | None => ([], s)
      end
  end.

End WithData.

End Scheduler.

(** ** Package [config]: [internal/config/config.go]

    A Go [int] is an integer without bound here; the fields of the nested
    structs carry a prefix where two structs share a field name. *)
Module Config.

Record ServerConfig := mkServerConfig {
  server_Port : Z
}.

Record SMTPConfig := mkSMTPConfig {
  Host : string;
  Port : Z;
  Username : string;
  Password : string;
  FromAddress : string
}.

Record TemplatesConfig := mkTemplatesConfig {
  Path : string
}.

Record RateLimitConfig := mkRateLimitConfig {
  PerHour : Z;
  Burst : Z
}.

Record LoggingConfig := mkLoggingConfig {
  FilePath : string;
  Level : string
}.

Record Config := mkConfig {
  Server : ServerConfig;
  SMTP : SMTPConfig;
  Templates : TemplatesConfig;
  RateLimit : RateLimitConfig;
  Logging : LoggingConfig
}.

(** [if x == zero { x = d }] *)
Definition orZ (x d : Z) : Z := if x =? 0 then d else x.
Definition orS (x d : string) : string := if decide (x = "") then d else x.

Definition setDefaults (c : Config) : Config :=
  mkConfig
    (mkServerConfig (orZ (server_Port (Server c)) 8080))
    (mkSMTPConfig (orS (Host (SMTP c)) "localhost")
                  (orZ (Port (SMTP c)) 587)
                  (Username (SMTP c))
                  (Password (SMTP c))
                  (orS (FromAddress (SMTP c)) "no-reply@runebird.app"))
    (mkTemplatesConfig (orS (Path (Templates c)) "./templates"))
    (mkRateLimitConfig (orZ (PerHour (RateLimit c)) 100)
                       (orZ (Burst (RateLimit c)) 5))
    (mkLoggingConfig (orS (FilePath (Logging c)) "./logs/runebird.log")
                     (orS (Level (Logging c)) "info")).

(** The errors of [Validate], one per message, with the value printed. *)
Inductive ValidateError :=
| ErrServerPort (port : Z)
| ErrSMTPHost
| ErrSMTPPort (port : Z)
| ErrSMTPUsername
| ErrSMTPPassword
| ErrSMTPFromAddress
| ErrTemplatesPath
| ErrPerHour (perHour : Z)
| ErrBurst (b : Z)
| ErrLevel (level : string).

Definition Validate (c : Config) : option ValidateError :=
  if (server_Port (Server c) <? 1) || (65535 <? server_Port (Server c)) then
    Some (ErrServerPort (server_Port (Server c)))
  else if decide (Host (SMTP c) = "") then Some ErrSMTPHost
  else if (Port (SMTP c) <? 1) || (65535 <? Port (SMTP c)) then
    Some (ErrSMTPPort (Port (SMTP c)))
  else if decide (Username (SMTP c) = "") then Some ErrSMTPUsername
  else if decide (Password (SMTP c) = "") then Some ErrSMTPPassword
  else if decide (FromAddress (SMTP c) = "") then Some ErrSMTPFromAddress
  else if decide (Path (Templates c) = "") then Some ErrTemplatesPath
  else if PerHour (RateLimit c) <? 1 then
    Some (ErrPerHour (PerHour (RateLimit c)))
  else if Burst (RateLimit c) <? 1 then Some (ErrBurst (Burst (RateLimit c)))
  else if bool_decide (Level (Logging c) <> "debug")
          && bool_decide (Level (Logging c) <> "info")
          && bool_decide (Level (Logging c) <> "warn")
          && bool_decide (Level (Logging c) <> "error") then
    Some (ErrLevel (Level (Logging c)))
  else None.

Inductive LoadError :=
| ErrReadFile (path : string)
| ErrUnmarshal
| ErrInvalid (e : ValidateError).

(** [Load].  [getenv] is the value of [EMAILER_CONFIG_PATH], [readFile]
    stands for [os.ReadFile] and [unmarshal] for [yaml.Unmarshal] into a
    zero [Config]; both give [None] for an error. *)
Definition Load (getenv : string) (readFile : string -> option string)
    (unmarshal : string -> option Config) : LoadError + Config :=
  let path := if decide (getenv = "") then "emailer.yaml" else getenv in
  match readFile path with
  | None => inl (ErrReadFile path)
  | Some data =>
      match unmarshal data with
      | None => inl ErrUnmarshal
      | Some cfg =>
          let cfg := setDefaults cfg in
          match Validate cfg with
          | Some e => inl (ErrInvalid e)
          | None => inr cfg
          end
      end
  end.

End Config.

(** ** Package [email]: [internal/email/email.go] *)
Module Email.

(** The value built by [smtp.PlainAuth(identity, username, password,
    host)]. *)
Record PlainAuth := mkPlainAuth {
  auth_identity : string;
  auth_username : string;
  auth_password : string;
  auth_host : string
}.

Record Sender := mkSender {
  cfg : Config.SMTPConfig;
  auth : PlainAuth;
  from : string
}.

Inductive error :=
| ErrInvalidConfig
| ErrNoRecipients
| ErrSendFailed (cause : string).

(** [err.Error()] *)
Definition Error (e : error) : string :=
  match e with
  | ErrInvalidConfig => "invalid SMTP configuration: missing required fields"
  | ErrNoRecipients => "no recipients provided"
  | ErrSendFailed cause => "failed to send email: " +:+ cause
  end.

Definition New (c : Config.SMTPConfig) : error + Sender :=
  if bool_decide (Config.Host c = "") || (Config.Port c =? 0)
     || bool_decide (Config.Username c = "")
     || bool_decide (Config.Password c = "")
     || bool_decide (Config.FromAddress c = "") then inl ErrInvalidConfig
  else
    inr (mkSender c
           (mkPlainAuth "" (Config.Username c) (Config.Password c)
              (Config.Host c))
           (Config.FromAddress c)).

(** The loop of [joinRecipients]: [result += ", " + recipients[i]]. *)
Definition joinRecipients (recipients : list string) : string :=
  match recipients with
  | [] => ""
  | first :: rest =>
      foldl (fun result r => result +:+ (", " +:+ r)) first rest
  end.

(** Carriage return and line feed. *)
Definition crlf : string := String "013"%char (String "010"%char EmptyString).

(** The arguments of one call of [smtp.SendMail]. *)
Record SmtpCall := mkSmtpCall {
  call_addr : string;
  call_auth : PlainAuth;
  call_from : string;
  call_to : list string;
  call_msg : string
}.

(** [Send].  [sendMail] stands for [smtp.SendMail], giving the text of
    its error or [None]; the result lists the calls made to it. *)
Definition Send (sendMail : SmtpCall -> option string)
    (recipients : list string) (subject htmlBody : string) (s : Sender)
  : option error * list SmtpCall :=
  match recipients with
  | [] => (Some ErrNoRecipients, [])
  | _ :: _ =>
      let msg :=
        "To: " +:+ joinRecipients recipients +:+ crlf
        +:+ "From: " +:+ from s +:+ crlf
        +:+ "Subject: " +:+ subject +:+ crlf
        +:+ "Content-Type: text/html; charset=UTF-8" +:+ crlf
        +:+ crlf
        +:+ htmlBody +:+ crlf in
      let addr :=
        Config.Host (cfg s) +:+ ":" +:+ pretty (Config.Port (cfg s)) in
      let call := mkSmtpCall addr (auth s) (from s) recipients msg in
      match sendMail call with
      | Some cause => (Some (ErrSendFailed cause), [call])
      | None => (None, [call])
      end
  end.

End Email.

(** ** Package [templates]: [internal/templates/templates.go] *)
Module Templates.

(** A parsed [*template.Template], as far as [Render] uses it:
    [Execute] gives the text of an error ([inl]) or the output ([inr]);
    [Lookup_subject] is the associated template named ["subject"], if
    one is defined. *)
Record Template (Data : Type) := mkTemplate {
  Execute : Data -> string + string;
  Lookup_subject : option (Data -> string + string)
}.
Arguments mkTemplate {Data}.
Arguments Execute {Data}.
Arguments Lookup_subject {Data}.

Record TemplateManager (Data : Type) := mkTemplateManager {
  Templates : gmap string (Template Data)
}.
Arguments mkTemplateManager {Data}.
Arguments Templates {Data}.

Inductive error :=
| ErrNotFound (name : string)
| ErrRender (name cause : string)
| ErrSubject (name cause : string).

(** [err.Error()] *)
Definition Error (e : error) : string :=
  match e with
  | ErrNotFound name => "template " +:+ name +:+ " not found"
  | ErrRender name cause =>
      "failed to render template " +:+ name +:+ ": " +:+ cause
  | ErrSubject name cause =>
      "failed to render subject for template " +:+ name +:+ ": " +:+ cause
  end.

(** [Render]: the body and the subject, in that order. *)
Definition Render {Data : Type} (name : string) (data : Data)
    (tm : TemplateManager Data) : error + string * string :=
  match Templates tm !! name with
  | None => inl (ErrNotFound name)
  | Some tmpl =>
      match Execute tmpl data with
      | inl cause => inl (ErrRender name cause)
      | inr body =>
          match Lookup_subject tmpl with
          | None => inr (body, "")
          | Some subjectTmpl =>
              match subjectTmpl data with
              | inl cause => inl (ErrSubject name cause)
              | inr subject => inr (body, subject)
              end
          end
      end
  end.

End Templates.

(** The collaborators of the scheduler, as [processTask] sees them: it
    only tests their errors against nil. *)
Definition renderOf {Data : Type} (tm : Templates.TemplateManager Data)
    (name : string) (data : Data) : option (string * string) :=
  match Templates.Render name data tm with
  | inl _ => None
  | inr res => Some res
  end.

Definition sendOf (sendMail : Email.SmtpCall -> option string)
    (sender : Email.Sender) (recipients : list string)
    (subject body : string) : bool :=
  match (Email.Send sendMail recipients subject body sender).1 with
  | Some _ => false
  | None => true
  end.

(** How many calls of [processTask] ended with the mail handed to the
    retry queue. *)
Definition isDeferred (o : Scheduler.Outcome) : bool :=
  match o with
  | Scheduler.Deferred => true
  | _ => false
  end.

Definition deferredCount (calls : list (string * Scheduler.Outcome)) : nat :=
  length (List.filter (fun c => isDeferred c.2) calls).

(** The mail that [processTask] hands to [QueueEmail] when it defers the
    task [id] of the table of [s]: the recipients of the task, the
    rendered subject (or the default one) and body, due ten seconds after
    the reading [ck_queue] of its clock. *)
Definition deferredMail {Data : Type} (clk : string -> Rate.ItemClock)
    (s : Scheduler.Scheduler Data) (id : string) : option Rate.EmailTask :=
  match Scheduler.tasks s !! id with
  | None => None
  | Some task =>
      match Scheduler.templates s (Scheduler.Template task)
              (Scheduler.TaskData task) with
      | None => None
      | Some (body, subject) =>
          Some (Rate.mkEmailTask (Scheduler.Recipients task)
                  (if decide (subject = "") then
                     "Scheduled email from RuneBird ("
                     +:+ Scheduler.Template task +:+ ")"
                   else subject)
                  body (Rate.ck_queue (clk id) + Rate.retryDelay))
      end
  end.

(** Instants count nanoseconds from the zero [time.Time]; the Unix epoch
    is [unixToInternal] seconds later. *)
Definition unixToInternal : Z := 62135596800.

Definition IsZero (t : Time) : bool := instant t =? 0.

(** The value of an [int64] computation: the low 64 bits, signed. *)
Definition wrap64 (z : Z) : Z := (z + 2 ^ 63) mod 2 ^ 64 - 2 ^ 63.

(** [t.UnixNano()] of the instant [now]: [int64] arithmetic, which wraps
    around outside the years 1678 to 2262. *)
Definition UnixNano (now : Z) : Z :=
  wrap64 (now - unixToInternal * 1000000000).

(** ** Package [server]: the two handlers of [internal/server/server.go] *)
Module Server.

Record SendRequest (Data : Type) := mkSendRequest {
  send_Template : string;
  send_Recipients : list string;
  send_Data : Data
}.
Arguments mkSendRequest {Data}.
Arguments send_Template {Data}.
Arguments send_Recipients {Data}.
Arguments send_Data {Data}.

Record ScheduleRequest (Data : Type) := mkScheduleRequest {
  sched_Template : string;
  sched_Recipients : list string;
  sched_SendAt : Time;
  sched_Data : Data
}.
Arguments mkScheduleRequest {Data}.
Arguments sched_Template {Data}.
Arguments sched_Recipients {Data}.
Arguments sched_SendAt {Data}.
Arguments sched_Data {Data}.

(** An [*http.Request] as the handlers read it: the method, and what
    [json.NewDecoder(r.Body).Decode] gives ([None] for an error). *)
Record Request (Body : Type) := mkRequest {
  Method : string;
  Decoded : option Body
}.
Arguments mkRequest {Body}.
Arguments Method {Body}.
Arguments Decoded {Body}.

(** What a handler writes to its [http.ResponseWriter]. *)
Record Response := mkResponse {
  StatusCode : Z;
  ResponseBody : string
}.

(** [http.Error]: the message and a line feed, under the given status. *)
Definition httpError (msg : string) (code : Z) : Response :=
  mkResponse code (msg +:+ String "010"%char EmptyString).

(** The [Server] struct.  [scheduler] holds the limiter that [main]
    gives to both the scheduler and the server, so [s.rateLimiter] is
    the limiter of [scheduler]; a counter vector maps a label to its
    count. *)
Record Server (Data : Type) := mkServer {
  logger : list LogEntry;
  sender : Email.Sender;
  templates : Templates.TemplateManager Data;
  scheduler : Scheduler.Scheduler Data;
  emailsSentTotal : gmap string nat;
  emailsFailedTotal : gmap string nat;
  emailsScheduledTotal : gmap string nat
}.
Arguments mkServer {Data}.
Arguments logger {Data}.
Arguments sender {Data}.
Arguments templates {Data}.
Arguments scheduler {Data}.
Arguments emailsSentTotal {Data}.
Arguments emailsFailedTotal {Data}.
Arguments emailsScheduledTotal {Data}.

(** [WithLabelValues(label).Inc()] *)
Definition Inc (label : string) (c : gmap string nat) : gmap string nat :=
  <[label := S (default O (c !! label))]> c.

(** The double quote. *)
Definition dq : string := String "034"%char EmptyString.

(** The body of a successful [/send]: the JSON object with the one
    member [status]. *)
Definition successBody : string :=
  "{" +:+ dq +:+ "status" +:+ dq +:+ ": " +:+ dq +:+ "success" +:+ dq +:+ "}".

(** The body of a successful [/schedule], with the member [task_id]. *)
Definition scheduledBody (id : string) : string :=
  "{" +:+ dq +:+ "status" +:+ dq +:+ ": " +:+ dq +:+ "success" +:+ dq
  +:+ ", " +:+ dq +:+ "task_id" +:+ dq +:+ ": " +:+ dq +:+ id +:+ dq +:+ "}".

(** The text of the error of [Scheduler.Schedule]. *)
Definition scheduleError (e : Scheduler.error) : string :=
  match e with
  | Scheduler.ErrTaskExists id => "task with ID " +:+ id +:+ " already exists"
  end.

Section WithData.
Context {Data : Type}.
Implicit Types (s : Server Data).

Definition rateLimiter s : Rate.Limiter :=
  Scheduler.rateLimiter (scheduler s).

Definition set_rateLimiter (rl : Rate.Limiter) s : Server Data :=
  mkServer (logger s) (sender s) (templates s)
           (Scheduler.set_rateLimiter rl (scheduler s))
           (emailsSentTotal s) (emailsFailedTotal s) (emailsScheduledTotal s).

Definition set_scheduler (sc : Scheduler.Scheduler Data) s : Server Data :=
  mkServer (logger s) (sender s) (templates s) sc
           (emailsSentTotal s) (emailsFailedTotal s) (emailsScheduledTotal s).

Definition log (lv : LogLevel) (msg : string) (field : list string) s
  : Server Data :=
  mkServer (logger s ++ [mkLog lv msg field]) (sender s) (templates s)
           (scheduler s) (emailsSentTotal s) (emailsFailedTotal s)
           (emailsScheduledTotal s).

Definition incSent (label : string) s : Server Data :=
  mkServer (logger s) (sender s) (templates s) (scheduler s)
           (Inc label (emailsSentTotal s)) (emailsFailedTotal s)
           (emailsScheduledTotal s).

Definition incFailed (label : string) s : Server Data :=
  mkServer (logger s) (sender s) (templates s) (scheduler s)
           (emailsSentTotal s) (Inc label (emailsFailedTotal s))
           (emailsScheduledTotal s).

Definition incScheduled (label : string) s : Server Data :=
  mkServer (logger s) (sender s) (templates s) (scheduler s)
           (emailsSentTotal s) (emailsFailedTotal s)
           (Inc label (emailsScheduledTotal s)).

(** [handleSend].  [ck] gives the clock readings of [CanSend],
    [ConsumeToken] and [QueueEmail]; [interrupt] is as in [WaitN]; the
    result lists the calls made to [smtp.SendMail]. *)
Definition handleSend (sendMail : Email.SmtpCall -> option string)
    (ck : Rate.ItemClock) (interrupt : option Z)
    (r : Request (SendRequest Data)) s
  : Response * list Email.SmtpCall * Server Data :=
  if negb (bool_decide (Method r = "POST")) then
    (httpError "Method not allowed" 405, [], s)
  else
    match Decoded r with
    | None =>
        (httpError "Invalid request body" 400, [],
         log LevelError "Failed to decode request body" [] s)
    | Some req =>
        if bool_decide (send_Template req = "") then
          (httpError "Template name is required" 400, [], s)
        else if bool_decide (send_Recipients req = []) then
          (httpError "At least one recipient is required" 400, [], s)
        else
          match Templates.Render (send_Template req) (send_Data req)
                  (templates s) with
          | inl err =>
              (httpError ("Failed to render template: "
                          +:+ Templates.Error err) 500, [],
               incFailed (send_Template req)
                 (log LevelError "Failed to render template"
                    [send_Template req] s))
          | inr (body, subject) =>
              let subject :=
                if decide (subject = "") then
                  "Email from RuneBird (" +:+ send_Template req +:+ ")"
                else subject in
              let '(granted, rl) :=
                Rate.CanSend (Rate.ck_reserve ck) (Rate.ck_delay ck)
                  (Rate.ck_cancel ck) (rateLimiter s) in
              if granted then
                let s := set_rateLimiter rl s in
                match Email.Send sendMail (send_Recipients req) subject body
                        (sender s) with
                | (Some err, calls) =>
                    (httpError ("Failed to send email: " +:+ Email.Error err)
                       500, calls,
                     incFailed (send_Template req)
                       (log LevelError "Failed to send email"
                          [send_Template req] s))
                | (None, calls) =>
                    let '(e, rl) :=
                      Rate.ConsumeToken interrupt (Rate.ck_wait ck)
                        (rateLimiter s) in
                    let s := set_rateLimiter rl s in
                    let s :=
                      match e with
                      | Some _ =>
                          log LevelError "Failed to consume rate limiter token"
                            [send_Template req] s
                      | None => s
                      end in
                    (mkResponse 200 successBody, calls,
                     incSent (send_Template req)
                       (log LevelInfo "Email sent successfully"
                          [send_Template req] s))
                end
              else
                let rl := Rate.QueueEmail (Rate.ck_queue ck)
                            (send_Recipients req) subject body rl in
                (mkResponse 200 successBody, [],
                 incSent (send_Template req)
                   (log LevelInfo "Email queued due to rate limit"
                      [send_Template req] (set_rateLimiter rl s)))
          end
    end.

(** [handleSchedule].  [now1] is the clock reading compared with
    [SendAt], [now2] the one the identifier is made of. *)
Definition handleSchedule (now1 now2 : Z)
    (r : Request (ScheduleRequest Data)) s : Response * Server Data :=
  if negb (bool_decide (Method r = "POST")) then
    (httpError "Method not allowed" 405, s)
  else
    match Decoded r with
    | None =>
        (httpError "Invalid request body" 400,
         log LevelError "Failed to decode schedule request body" [] s)
    | Some req =>
        if bool_decide (sched_Template req = "") then
          (httpError "Template name is required" 400, s)
        else if bool_decide (sched_Recipients req = []) then
          (httpError "At least one recipient is required" 400, s)
        else if IsZero (sched_SendAt req) then
          (httpError "SendAt time is required" 400, s)
        else if instant (sched_SendAt req) <? now1 then
          (httpError "SendAt time must be in the future" 400, s)
        else
          let id := "sched-" +:+ pretty (UnixNano now2) in
          match Scheduler.Schedule id (sched_Template req)
                  (sched_Recipients req) (sched_Data req) (sched_SendAt req)
                  (scheduler s) with
          | (Some err, sc) =>
              (httpError ("Failed to schedule email: " +:+ scheduleError err)
                 500,
               log LevelError "Failed to schedule email" [id]
                 (set_scheduler sc s))
          | (None, sc) =>
              (mkResponse 200 (scheduledBody id),
               log LevelInfo "Email scheduled successfully" [id]
                 (incScheduled (sched_Template req) (set_scheduler sc s)))
          end
    end.

End WithData.

End Server.

(** Case analysis on the first integer comparison of the goal. *)
Ltac case_Zcmp :=
  match goal with
  | |- context [Z.ltb ?a ?b] => destruct (Z.ltb_spec a b)
  | |- context [Z.leb ?a ?b] => destruct (Z.leb_spec a b)
  | |- context [Z.eqb ?a ?b] => destruct (Z.eqb_spec a b)
  end.

(** ** Facts about the bucket *)
Module XRateFacts.
Import XRate.




(** The wait never refills more than the shortfall, and fits a
    [time.Duration]. *)
Lemma durationFromTokens_bounds (lim tk : Z) :
  0 < lim -> 0 <= tk ->
  0 <= durationFromTokens lim tk <= InfDuration
  /\ durationFromTokens lim tk * lim <= tk.
Proof.
  intros Hlim Htk. unfold durationFromTokens.
  destruct (Z.leb_spec lim 0); [lia|].
  destruct (Z.ltb_spec (MaxInt64 * lim) tk) as [Hcap|Hcap].
  - unfold InfDuration, MaxInt64 in *. lia.
  - assert (0 <= tk ÷ lim) by (apply Z.quot_pos; lia).
    assert (lim * (tk ÷ lim) <= tk) by (apply Z.mul_quot_le; lia).
    assert (tk ÷ lim <= MaxInt64).
    { apply Z.quot_le_upper_bound; lia. }
    unfold InfDuration. lia.
Qed.



Lemma waitDuration_bounds (t n : Z) (l : Limiter) :
  0 < limit l -> 0 <= waitDuration t n l <= InfDuration.
Proof.
  intros Hlim. unfold waitDuration.
  destruct (Z.ltb_spec (advance t l - n * tokenUnit) 0).
  - apply durationFromTokens_bounds; lia.
  - unfold InfDuration, MaxInt64. lia.
Qed.

(** With no deadline, a reservation within the burst always succeeds and
    debits [n] tokens from the accrued balance. *)
Lemma reserveN_ok (t n : Z) (l : Limiter) :
  0 < limit l -> n <= burst l ->
  reserveN t n InfDuration l =
    ({| ok := true; r_tokens := n; timeToAct := t + waitDuration t n l;
        r_limit := limit l |},
     {| limit := limit l; burst := burst l;
        tokens := advance t l - n * tokenUnit; last := t;
        lastEvent := t + waitDuration t n l |}).
Proof.
  intros Hlim Hn. unfold reserveN.
  pose proof (waitDuration_bounds t n l Hlim) as Hw.
  destruct (Z.leb_spec n (burst l)); [|lia].
  destruct (Z.leb_spec (waitDuration t n l) InfDuration); [|lia].
  reflexivity.
Qed.

(** Accrual composes: accruing up to [t] and then for [tc - t] more is
    accruing up to [tc]. *)
Lemma advance_later (t tc : Z) (lim : XRate.Limiter) :
  0 < limit lim -> last lim <= t <= tc ->
  Z.min (burst lim * tokenUnit) (advance t lim + (tc - t) * limit lim)
  = advance tc lim.
Proof.
  intros Hlim Ht. unfold advance, tokensFromDuration.
  rewrite (proj2 (Z.leb_gt (limit lim) 0)) by lia.
  rewrite (proj2 (Z.ltb_ge t (last lim))) by lia.
  rewrite (proj2 (Z.ltb_ge tc (last lim))) by lia.
  assert (0 <= (tc - t) * limit lim) by nia.
  repeat case_Zcmp; nia.
Qed.

End XRateFacts.

(** ** Facts about [CanSend] *)
Module CanSendFacts.
Import XRate XRateFacts Rate.

(** [CanSend] on a configured limiter: the reservation always succeeds,
    and the answer is whether its time to act has come when [Delay]
    reads the clock. *)
Lemma CanSend_cases (t1 t2 t3 : Z) (l : Rate.Limiter) :
  0 < limit (limiter l) -> 0 < burst (limiter l) ->
  let lim := limiter l in
  let w := waitDuration t1 1 lim in
  let r := mkReservation true 1 (t1 + w) (limit lim) in
  let lim1 := XRate.mkLimiter (limit lim) (burst lim)
                (advance t1 lim - tokenUnit) t1 (t1 + w) in
  CanSend t1 t2 t3 l =
    if t1 + w <=? t2 then (true, set_limiter lim1 l)
    else (false, set_limiter (CancelAt r t3 lim1) l).
Proof.
  intros Hlim Hb lim w r lim1. unfold CanSend, ReserveN.
  rewrite reserveN_ok by lia. cbn [ok].
  unfold DelayFrom. cbn [ok negb timeToAct]. fold lim w.
  replace (advance t1 lim - 1 * tokenUnit) with (advance t1 lim - tokenUnit)
    by lia.
  fold lim1 r.
  destruct (Z.leb_spec (t1 + w) t2) as [Hle|Hgt].
  - destruct (Z.ltb_spec (t1 + w - t2) 0); [reflexivity|].
    destruct (Z.leb_spec (t1 + w - t2) 0); [reflexivity|lia].
  - destruct (Z.ltb_spec (t1 + w - t2) 0); [lia|].
    destruct (Z.leb_spec (t1 + w - t2) 0); [lia|reflexivity].
Qed.




End CanSendFacts.

(** ** Facts about the retry queue *)
Module QueueFacts.
Import Rate.

Lemma split_ready_acc (now : Z) (q ready remaining : list EmailTask) :
  foldl (fun acc task =>
           if ready_at now task then (acc.1 ++ [task], acc.2)
           else (acc.1, acc.2 ++ [task]))
        (ready, remaining) q
  = (ready ++ filter (fun task => RetryAt task < now) q,
     remaining ++ filter (fun task => ~ RetryAt task < now) q).
Proof.
  revert ready remaining.
  induction q as [|task q IH]; intros ready remaining; cbn [foldl].
  - rewrite !filter_nil, !app_nil_r. reflexivity.
  - unfold ready_at at 2. destruct (Z.ltb_spec (RetryAt task) now) as [Hr|Hr].
    + rewrite IH. cbn [fst snd].
      rewrite filter_cons_True by exact Hr.
      rewrite filter_cons_False by (intros Hn; apply Hn, Hr).
      rewrite <- app_assoc. reflexivity.
    + rewrite IH. cbn [fst snd].
      rewrite filter_cons_False by lia.
      rewrite filter_cons_True by lia.
      rewrite <- app_assoc. reflexivity.
Qed.

Lemma split_ready_filter (now : Z) (q : list EmailTask) :
  split_ready now q
  = (filter (fun task => RetryAt task < now) q,
     filter (fun task => ~ RetryAt task < now) q).
Proof. unfold split_ready. rewrite split_ready_acc. reflexivity. Qed.

Lemma GetQueuedEmails_filter (now : Z) (l : Limiter) :
  GetQueuedEmails now l
  = (filter (fun task => RetryAt task < now) (queue l),
     set_queue (filter (fun task => ~ RetryAt task < now) (queue l)) l).
Proof. unfold GetQueuedEmails. rewrite split_ready_filter. reflexivity. Qed.

(** C3 (amended).  [GetQueuedEmails] at time [now] returns exactly the
    stored items whose [RetryAt] is strictly before [now], in queue
    order, and retains exactly the others; the returned items followed
    by the retained ones are a permutation of the items stored before
    the call, so none is lost and none is duplicated. *)
Theorem GetQueuedEmails_partition (now : Z) (l : Limiter) :
  (GetQueuedEmails now l).1
    = filter (fun task => RetryAt task < now) (queue l)
  /\ queue (GetQueuedEmails now l).2
    = filter (fun task => now <= RetryAt task) (queue l)
  /\ (GetQueuedEmails now l).1 ++ queue (GetQueuedEmails now l).2
    ≡ₚ queue l.
Proof.
  rewrite GetQueuedEmails_filter. cbn [fst snd queue set_queue].
  split; [reflexivity|]. split.
  - apply list_filter_iff. intros task. lia.
  - apply filter_app_complement.
Qed.

(** C3, counterexample.  An item whose [RetryAt] equals [now] is not
    returned: it stays in the queue. *)
Lemma GetQueuedEmails_keeps_item_due_now :
  let task := mkEmailTask ["a@example.com"] "s" "b" 5 in
  let l := Rate.mkLimiter (XRate.NewLimiter 600 2) [task] [] false false 0 in
  RetryAt task <= 5
  /\ (GetQueuedEmails 5 l).1 = []
  /\ queue (GetQueuedEmails 5 l).2 = [task].
Proof. intros task l. split; [cbn; lia|]. split; reflexivity. Qed.

Lemma GetQueuedEmails_QueueEmail (now t : Z) (recipients : list string)
    (subject body : string) (l : Limiter) :
  let task := mkEmailTask recipients subject body (now + retryDelay) in
  let l1 := QueueEmail now recipients subject body l in
  (GetQueuedEmails t l1).1
    = (GetQueuedEmails t l).1 ++ (if t <=? now + retryDelay then [] else [task])
  /\ queue (GetQueuedEmails t l1).2
    = queue (GetQueuedEmails t l).2
      ++ (if t <=? now + retryDelay then [task] else []).
Proof.
  intros task l1. rewrite !GetQueuedEmails_filter.
  cbn [fst snd queue set_queue l1 QueueEmail log_Info].
  rewrite !filter_app.
  destruct (Z.leb_spec t (now + retryDelay)) as [Hle|Hgt].
  - rewrite (filter_cons_False _ task) by (cbn; lia).
    rewrite (filter_cons_True _ task) by (cbn; lia).
    rewrite !filter_nil. split; reflexivity.
  - rewrite (filter_cons_True _ task) by (cbn; lia).
    rewrite (filter_cons_False _ task) by (cbn; lia).
    rewrite !filter_nil. split; reflexivity.
Qed.

(** C4 (amended).  [QueueEmail] at time [now] appends exactly one item,
    with [RetryAt = now + 10 s], after the items already queued.  A
    [GetQueuedEmails] at any time [t] up to and including
    [now + 10 s] does not return the new item and keeps it queued; one
    at a time strictly after [now + 10 s] returns it, after the older
    ready items.  On a queue that was empty: the first returns no item,
    the second returns exactly the new item and leaves the queue
    empty. *)
Theorem QueueEmail_then_GetQueuedEmails (now : Z) (recipients : list string)
    (subject body : string) (l : Limiter) :
  let task := mkEmailTask recipients subject body (now + retryDelay) in
  let l1 := QueueEmail now recipients subject body l in
  retryDelay = 10 * 1000000000
  /\ queue l1 = queue l ++ [task]
  /\ (forall t, t <= now + retryDelay ->
        (GetQueuedEmails t l1).1 = (GetQueuedEmails t l).1
        /\ queue (GetQueuedEmails t l1).2
           = queue (GetQueuedEmails t l).2 ++ [task])
  /\ (forall t, now + retryDelay < t ->
        (GetQueuedEmails t l1).1 = (GetQueuedEmails t l).1 ++ [task]
        /\ queue (GetQueuedEmails t l1).2 = queue (GetQueuedEmails t l).2)
  /\ (queue l = [] ->
        (forall t, t <= now + retryDelay ->
           (GetQueuedEmails t l1).1 = []
           /\ queue (GetQueuedEmails t l1).2 = [task])
        /\ (forall t, now + retryDelay < t ->
              (GetQueuedEmails t l1).1 = [task]
              /\ queue (GetQueuedEmails t l1).2 = [])).
Proof.
  intros task l1.
  assert (Hle : forall t, t <= now + retryDelay ->
            (GetQueuedEmails t l1).1 = (GetQueuedEmails t l).1
            /\ queue (GetQueuedEmails t l1).2
               = queue (GetQueuedEmails t l).2 ++ [task]).
  { intros t Ht.
    destruct (GetQueuedEmails_QueueEmail now t recipients subject body l)
      as [H1 H2]. fold task l1 in H1, H2.
    rewrite H1, H2. destruct (Z.leb_spec t (now + retryDelay)); [|lia].
    rewrite app_nil_r. split; reflexivity. }
  assert (Hgt : forall t, now + retryDelay < t ->
            (GetQueuedEmails t l1).1 = (GetQueuedEmails t l).1 ++ [task]
            /\ queue (GetQueuedEmails t l1).2
               = queue (GetQueuedEmails t l).2).
  { intros t Ht.
    destruct (GetQueuedEmails_QueueEmail now t recipients subject body l)
      as [H1 H2]. fold task l1 in H1, H2.
    rewrite H1, H2. destruct (Z.leb_spec t (now + retryDelay)); [lia|].
    rewrite app_nil_r. split; reflexivity. }
  split; [reflexivity|]. split; [reflexivity|].
  split; [exact Hle|]. split; [exact Hgt|].
  intros Hempty.
  assert (Hold : forall t, (GetQueuedEmails t l).1 = []
                           /\ queue (GetQueuedEmails t l).2 = []).
  { intros t. rewrite GetQueuedEmails_filter, Hempty. split; reflexivity. }
  split; intros t Ht.
  - destruct (Hle t Ht) as [H1 H2]. destruct (Hold t) as [H3 H4].
    rewrite H1, H2, H3, H4. split; reflexivity.
  - destruct (Hgt t Ht) as [H1 H2]. destruct (Hold t) as [H3 H4].
    rewrite H1, H2, H3, H4. split; reflexivity.
Qed.

(** A witness for [QueueEmail_then_GetQueuedEmails]: a fresh limiter,
    one item queued at instant 7, drained at instant 7 and one
    nanosecond after its delay. *)
Lemma QueueEmail_then_GetQueuedEmails_witness :
  let l := Rate.mkLimiter (XRate.NewLimiter 600 2) [] [] false false 0 in
  let task := mkEmailTask ["a@example.com"] "s" "b" (7 + retryDelay) in
  let l1 := QueueEmail 7 ["a@example.com"] "s" "b" l in
  queue l = []
  /\ 7 <= 7 + retryDelay
  /\ 7 + retryDelay < 7 + retryDelay + 1
  /\ (GetQueuedEmails 7 l1).1 = []
  /\ queue (GetQueuedEmails 7 l1).2 = [task]
  /\ (GetQueuedEmails (7 + retryDelay + 1) l1).1 = [task]
  /\ queue (GetQueuedEmails (7 + retryDelay + 1) l1).2 = [].
Proof.
  intros l task l1.
  assert (Hq : queue l = []) by reflexivity.
  assert (H1 : 7 <= 7 + retryDelay) by (vm_compute; discriminate).
  assert (H2 : 7 + retryDelay < 7 + retryDelay + 1) by reflexivity.
  destruct (QueueEmail_then_GetQueuedEmails 7 ["a@example.com"] "s" "b" l)
    as (_ & _ & _ & _ & Hempty).
  destruct (Hempty Hq) as [Hnow Hlater].
  destruct (Hnow 7 H1) as [Ha Hb].
  destruct (Hlater (7 + retryDelay + 1) H2) as [Hc Hd].
  repeat (split; [assumption|]). assumption.
Defined.

(** C4, counterexample.  An item queued at instant 0 on an empty queue
    is not returned by [GetQueuedEmails] at instant [0 + 10 s]: the
    call returns nothing and the item stays queued. *)
Lemma GetQueuedEmails_at_delay_returns_nothing :
  let l := Rate.mkLimiter (XRate.NewLimiter 600 2) [] [] false false 0 in
  let l1 := QueueEmail 0 ["a@example.com"] "s" "b" l in
  (GetQueuedEmails (0 + retryDelay) l1).1 = []
  /\ queue (GetQueuedEmails (0 + retryDelay) l1).2
     = [mkEmailTask ["a@example.com"] "s" "b" (0 + retryDelay)].
Proof. split; reflexivity. Qed.

End QueueFacts.

(** ** The burst and the refill *)
Module BurstFacts.
Import XRate XRateFacts Rate CanSendFacts.







End BurstFacts.

(** ** Facts about the scheduler *)
Module SchedulerFacts.
Import Scheduler.

Section WithData.
Context {Data : Type}.
Implicit Types (s : Scheduler Data) (task : ScheduledTask Data).

(** C6.  In every scheduler state in which a task with identifier [id]
    is pending, [Schedule] with that [id] returns the duplicate-task
    error and leaves the whole scheduler state unchanged; in particular
    the table still holds the first task with its template, recipients,
    data and send-at. *)
Theorem Schedule_duplicate (id template : string) (recipients : list string)
    (data : Data) (sendAt : Time) s task :
  tasks s !! id = Some task ->
  Schedule id template recipients data sendAt s = (Some (ErrTaskExists id), s)
  /\ tasks (Schedule id template recipients data sendAt s).2 !! id = Some task.
Proof.
  intros Hpending. unfold Schedule. rewrite Hpending. split; [reflexivity|].
  exact Hpending.
Qed.

(** [Schedule] with a fresh identifier stores the task, its send-at
    normalised to UTC. *)
Lemma Schedule_fresh (id template : string) (recipients : list string)
    (data : Data) (sendAt : Time) s :
  tasks s !! id = None ->
  (Schedule id template recipients data sendAt s).1 = None
  /\ tasks (Schedule id template recipients data sendAt s).2 !! id
     = Some (mkScheduledTask id template recipients data (UTC sendAt))
  /\ isRunning (Schedule id template recipients data sendAt s).2 = isRunning s.
Proof.
  intros Hfresh. unfold Schedule. rewrite Hfresh. cbn.
  rewrite lookup_insert_eq. repeat split; reflexivity.
Qed.

(** [processTask] does not touch the pending table nor the loop state. *)
Lemma processTask_frame (ck : Rate.ItemClock) (id : string) task s :
  tasks (processTask ck id task s).2 = tasks s
  /\ isRunning (processTask ck id task s).2 = isRunning s
  /\ ctxDone (processTask ck id task s).2 = ctxDone s
  /\ loops (processTask ck id task s).2 = loops s.
Proof.
  unfold processTask. cbn [templates log].
  destruct (templates s (Template task) (TaskData task)) as [[body subject]|];
    [|repeat split; reflexivity].
  cbn [rateLimiter log].
  destruct (Rate.CanSend _ _ _ (rateLimiter s)) as [[] rl];
    [|repeat split; reflexivity].
  cbn [sender set_rateLimiter].
  case_match; repeat split; reflexivity.
Qed.

(** How a dispatch ends, by what the collaborators and the limiter
    answer: a render error drops the task; a granted [CanSend] leads to
    one [Send], whose error drops the task as well; a refused one hands
    the rendered mail to the retry queue. *)
Lemma processTask_outcome (ck : Rate.ItemClock) (id : string) task s :
  match templates s (Template task) (TaskData task) with
  | None =>
      (processTask ck id task s).1 = RenderFailed
      /\ rateLimiter (processTask ck id task s).2 = rateLimiter s
  | Some (body, subject) =>
      let subject :=
        if decide (subject = "") then
          "Scheduled email from RuneBird (" +:+ Template task +:+ ")"
        else subject in
      let res := Rate.CanSend (Rate.ck_reserve ck) (Rate.ck_delay ck)
                   (Rate.ck_cancel ck) (rateLimiter s) in
      if res.1 then
        (processTask ck id task s).1
          = (if sender s (Recipients task) subject body then Sent
             else SendFailed)
        /\ rateLimiter (processTask ck id task s).2 = res.2
      else
        (processTask ck id task s).1 = Deferred
        /\ rateLimiter (processTask ck id task s).2
           = Rate.QueueEmail (Rate.ck_queue ck) (Recipients task) subject
               body res.2
  end.
Proof.
  unfold processTask. cbn [templates log].
  destruct (templates s (Template task) (TaskData task)) as [[body subject]|];
    [|split; reflexivity].
  cbn [rateLimiter log].
  destruct (Rate.CanSend _ _ _ (rateLimiter s)) as [[] rl]; cbn [fst snd];
    [|split; reflexivity].
  cbn [sender set_rateLimiter log].
  destruct (sender s _ _ body); split; reflexivity.
Qed.

(** The loop of [processTasks] calls [processTask] on the due
    identifiers, in visiting order, and marks exactly those for deletion. *)
Lemma visit_spec (now : Z) (clk : string -> Rate.ItemClock)
    (order : list string) :
  forall (toDelete : list string) (calls : list (string * Outcome)) s,
    let dueIds :=
      List.filter (fun id => match tasks s !! id with
                             | Some task => due now task
                             | None => false
                             end) order in
    (visit now clk order toDelete calls s).1.1 = toDelete ++ dueIds
    /\ (visit now clk order toDelete calls s).1.2.*1 = calls.*1 ++ dueIds
    /\ tasks (visit now clk order toDelete calls s).2 = tasks s
    /\ isRunning (visit now clk order toDelete calls s).2 = isRunning s.
Proof.
  induction order as [|id rest IH]; intros toDelete calls s; cbn zeta.
  - cbn. rewrite !app_nil_r. repeat split; reflexivity.
  - cbn [visit List.filter].
    destruct (tasks s !! id) as [task|] eqn:Hid; [|apply IH].
    destruct (due now task) eqn:Hdue; [|apply IH].
    destruct (processTask_frame (clk id) id task s) as (Ht & Hr & _ & _).
    destruct (processTask (clk id) id task s) as [o s1]. cbn [snd] in Ht, Hr.
    specialize (IH (toDelete ++ [id]) (calls ++ [(id, o)]) s1).
    cbn zeta in IH. rewrite Ht, Hr in IH.
    destruct IH as (H1 & H2 & H3 & H4).
    rewrite H1, H2, H3, H4, fmap_app, <- !app_assoc.
    repeat split; reflexivity.
Qed.

Lemma foldl_delete_lookup (ids : list string) :
  forall (m : gmap string (ScheduledTask Data)) (id : string),
    foldl (fun m id => delete id m) m ids !! id
    = if decide (id ∈ ids) then None else m !! id.
Proof.
  induction ids as [|x ids IH]; intros m id; cbn [foldl].
  - rewrite decide_False by apply not_elem_of_nil. reflexivity.
  - rewrite IH. destruct (decide (id ∈ ids)) as [Hin|Hnin].
    + rewrite decide_True by (apply elem_of_cons; right; exact Hin).
      reflexivity.
    + destruct (decide (id = x)) as [->|Hne].
      * rewrite decide_True by (apply elem_of_cons; left; reflexivity).
        apply lookup_delete_eq.
      * rewrite decide_False
          by (rewrite elem_of_cons; intros [?|?]; contradiction).
        apply lookup_delete_ne. congruence.
Qed.

Lemma elem_of_due_ids (now : Z) (order : list string) s (id : string) :
  id ∈ List.filter (fun id => match tasks s !! id with
                               | Some task => due now task
                               | None => false
                               end) order
  <-> id ∈ order
      /\ exists task, tasks s !! id = Some task /\ instant (SendAt task) <= now.
Proof.
  rewrite !list_elem_of_In, filter_In. unfold due. split.
  - intros [Hin Hdue]. split; [exact Hin|].
    destruct (tasks s !! id) as [task|]; [|discriminate].
    exists task. split; [reflexivity|]. apply Z.leb_le, Hdue.
  - intros [Hin (task & -> & Hle)]. split; [exact Hin|].
    apply Z.leb_le, Hle.
Qed.

(** One tick of the poll loop of a running scheduler, the iteration
    visiting every pending identifier once. *)
Lemma processTasks_tick_spec (now : Z) (clk : string -> Rate.ItemClock)
    (order : list string) s :
  isRunning s = true -> NoDup order ->
  (forall id, id ∈ order <-> is_Some (tasks s !! id)) ->
  let res := processTasks_tick now clk order s in
  (forall id task,
     tasks s !! id = Some task -> instant (SendAt task) <= now ->
     tasks res.2 !! id = None /\ id ∈ res.1.*1)
  /\ (forall id task,
        tasks s !! id = Some task -> now < instant (SendAt task) ->
        tasks res.2 !! id = Some task /\ id ∉ res.1.*1)
  /\ (forall id,
        tasks s !! id = None -> tasks res.2 !! id = None /\ id ∉ res.1.*1)
  /\ NoDup res.1.*1.
Proof.
  intros Hrun Hnodup Horder res. subst res.
  unfold processTasks_tick. rewrite Hrun. cbn [negb].
  destruct (visit_spec now clk order [] [] s) as (Hdel & Hcalls & Htasks & _).
  destruct (visit now clk order [] [] s) as [[toDelete calls] s1].
  cbn [fst snd] in *. rewrite app_nil_l in Hdel, Hcalls.
  cbn [tasks set_tasks]. rewrite Htasks, Hcalls, Hdel.
  set (dueIds := List.filter _ order).
  assert (Hmem : forall id, id ∈ dueIds <-> id ∈ order
            /\ exists task, tasks s !! id = Some task
                            /\ instant (SendAt task) <= now)
    by (intros id; apply elem_of_due_ids).
  split; [|split; [|split]].
  - intros id task Hid Hdue.
    assert (Hin : id ∈ dueIds).
    { apply Hmem. split; [apply Horder; eauto|eauto]. }
    rewrite foldl_delete_lookup, decide_True by exact Hin.
    split; [reflexivity|exact Hin].
  - intros id task Hid Hlater.
    assert (Hnin : id ∉ dueIds).
    { rewrite Hmem. intros [_ (task' & Hid' & Hle)].
      rewrite Hid in Hid'. injection Hid' as <-. lia. }
    rewrite foldl_delete_lookup, decide_False by exact Hnin.
    split; [exact Hid|exact Hnin].
  - intros id Hid.
    assert (Hnin : id ∉ dueIds).
    { rewrite Hmem. intros [_ (task' & Hid' & _)]. congruence. }
    rewrite foldl_delete_lookup, decide_False by exact Hnin.
    split; [exact Hid|exact Hnin].
  - subst dueIds.
    apply NoDup_ListNoDup, List.NoDup_filter, NoDup_ListNoDup, Hnodup.
Qed.

(** C7.  On a tick of the poll loop of a running scheduler, every
    pending task whose send-at is at or before [now] is removed from the
    table and [processTask] is called on it exactly once; tasks not yet
    due stay in the table and are not dispatched.  This holds for every
    render and transport collaborator and every limiter state, hence
    whatever the outcome of the dispatch.  In particular a task scheduled
    with a send-at that is not after [now] is absent from the table
    after the tick. *)
Theorem processTasks_tick_removes_due (now : Z)
    (clk : string -> Rate.ItemClock) :
  (forall (order : list string) s,
     isRunning s = true -> NoDup order ->
     (forall id, id ∈ order <-> is_Some (tasks s !! id)) ->
     let res := processTasks_tick now clk order s in
     (forall id task,
        tasks s !! id = Some task -> instant (SendAt task) <= now ->
        tasks res.2 !! id = None /\ id ∈ res.1.*1)
     /\ (forall id task,
           tasks s !! id = Some task -> now < instant (SendAt task) ->
           tasks res.2 !! id = Some task /\ id ∉ res.1.*1)
     /\ NoDup res.1.*1)
  /\ (forall (id template : string) (recipients : list string) (data : Data)
             (sendAt : Time) (order : list string) s,
        isRunning s = true -> tasks s !! id = None ->
        instant sendAt <= now ->
        let s1 := (Schedule id template recipients data sendAt s).2 in
        NoDup order -> (forall k, k ∈ order <-> is_Some (tasks s1 !! k)) ->
        is_Some (tasks s1 !! id)
        /\ tasks (processTasks_tick now clk order s1).2 !! id = None).
Proof.
  split.
  - intros order s Hrun Hnodup Horder res.
    destruct (processTasks_tick_spec now clk order s Hrun Hnodup Horder)
      as (Hdue & Hlater & _ & Honce).
    split; [exact Hdue|]. split; [exact Hlater|exact Honce].
  - intros id template recipients data sendAt order s Hrun Hfresh Hpast s1
           Hnodup Horder.
    destruct (Schedule_fresh id template recipients data sendAt s Hfresh)
      as (_ & Hstored & Hrun1).
    fold s1 in Hstored, Hrun1.
    split; [rewrite Hstored; eauto|].
    assert (Hrun' : isRunning s1 = true) by congruence.
    destruct (processTasks_tick_spec now clk order s1 Hrun' Hnodup Horder)
      as (Hdue & _).
    apply (Hdue id _ Hstored). exact Hpast.
Qed.

(** [Start] on a running scheduler and [Stop] on a stopped one do
    nothing, so both are idempotent. *)
Lemma Start_Stop_idempotent s :
  (isRunning s = true -> Start s = s)
  /\ (isRunning s = false -> Stop s = s)
  /\ Start (Start s) = Start s
  /\ Stop (Stop s) = Stop s.
Proof.
  unfold Start, Stop.
  destruct (isRunning s) eqn:Hrun; cbn; rewrite ?Hrun; cbn;
    repeat split; congruence.
Qed.

(** While the scheduler is stopped, a pass of the loop through its
    [select] dispatches nothing and leaves the table as it is. *)
Lemma stopped_select_dispatches_nothing (tickReady : bool) (pick : SelectCase)
    (now : Z) (clk : string -> Rate.ItemClock) (order : list string) s :
  isRunning s = false ->
  (processTasks_select tickReady pick now clk order s).1 = []
  /\ tasks (processTasks_select tickReady pick now clk order s).2 = tasks s.
Proof.
  intros Hstop. unfold processTasks_select, processTasks_tick.
  rewrite Hstop. destruct (loops s); [split; reflexivity|].
  destruct (select_case _ _ _) as [[]|]; split; reflexivity.
Qed.

(** C8, the code at the failing input.  A scheduler with a pending task
    is started, stopped and, once the first goroutine has left through
    [<-s.ctx.Done()], started again.  The second [Start] sets the flag
    and spawns a goroutine, but the context made by [New] stays
    cancelled: at its first [select], its ticker not yet fired, the new
    goroutine returns.  No loop is left, every later pass is void and
    the task stays pending, however late. *)
Theorem restart_leaves_no_loop (id template : string)
    (recipients : list string) (data : Data) (sendAt : Time)
    (snd : list string -> string -> string -> bool)
    (tpl : string -> Data -> option (string * string))
    (rl : Rate.Limiter) (pick1 pick2 : SelectCase) (now1 now2 : Z)
    (clk : string -> Rate.ItemClock) (order : list string) :
  let s0 := (Schedule id template recipients data sendAt (New snd tpl rl)).2 in
  let s1 := Start s0 in
  let s2 := Stop s1 in
  let s2' := (processTasks_select false pick1 now1 clk order s2).2 in
  let s3 := Start s2' in
  let s4 := (processTasks_select false pick2 now2 clk order s3).2 in
  isRunning s1 = true /\ loops s1 = 1%nat
  /\ isRunning s2 = false /\ ctxDone s2 = true
  /\ isRunning s3 = true /\ ctxDone s3 = true /\ loops s3 = 1%nat
  /\ loops s4 = 0%nat /\ isRunning s4 = true
  /\ (forall tickReady pick now clk' order',
        processTasks_select tickReady pick now clk' order' s4 = ([], s4))
  /\ tasks s4 !! id
     = Some (mkScheduledTask id template recipients data (UTC sendAt)).
Proof.
  intros. repeat split; try reflexivity.
  assert (tasks s4
          = <[id := mkScheduledTask id template recipients data (UTC sendAt)]>
              ∅) as -> by reflexivity.
  apply lookup_insert_eq.
Qed.

End WithData.

(** A witness for [Schedule_duplicate]: ["t1"] is scheduled twice. *)
Lemma Schedule_duplicate_witness :
  let s0 : Scheduler string :=
    New (fun _ _ _ => true) (fun _ _ => None)
        (Rate.mkLimiter (XRate.NewLimiter 600 2) [] [] false false 0) in
  let s1 := (Schedule "t1" "welcome" ["a@example.com"] "Alice"
               (mkTime 300 "Local") s0).2 in
  let task := mkScheduledTask "t1" "welcome" ["a@example.com"] "Alice"
                (mkTime 300 "UTC") in
  tasks s1 !! "t1" = Some task
  /\ Schedule "t1" "other" [] "Bob" (mkTime 5 "UTC") s1
     = (Some (ErrTaskExists "t1"), s1)
  /\ tasks (Schedule "t1" "other" [] "Bob" (mkTime 5 "UTC") s1).2 !! "t1"
     = Some task.
Proof.
  intros s0 s1 task.
  assert (Hpending : tasks s1 !! "t1" = Some task) by reflexivity.
  split; [exact Hpending|].
  exact (Schedule_duplicate "t1" "other" [] "Bob" (mkTime 5 "UTC") s1 task
           Hpending).
Defined.

(** A witness for [processTasks_tick_removes_due]: a running scheduler,
    a task scheduled one minute in the past, one tick. *)
Lemma processTasks_tick_removes_due_witness :
  let clk := fun _ : string => Rate.mkItemClock 60 60 60 60 60 None in
  let s : Scheduler string :=
    Start (New (fun _ _ _ => true) (fun _ _ => None)
             (Rate.mkLimiter (XRate.NewLimiter 600 2) [] [] false false 0)) in
  let s1 := (Schedule "t3" "nonexistent" ["a@example.com"] "Alice"
               (mkTime 0 "Local") s).2 in
  isRunning s = true /\ tasks s !! "t3" = None
  /\ instant (mkTime 0 "Local") <= 60
  /\ NoDup ["t3"] /\ (forall k, k ∈ ["t3"] <-> is_Some (tasks s1 !! k))
  /\ isRunning s1 = true
  /\ tasks s1 !! "t3"
     = Some (mkScheduledTask "t3" "nonexistent" ["a@example.com"] "Alice"
               (mkTime 0 "UTC"))
  /\ (tasks (processTasks_tick 60 clk ["t3"] s1).2 !! "t3" = None
      /\ "t3" ∈ (processTasks_tick 60 clk ["t3"] s1).1.*1)
  /\ (is_Some (tasks s1 !! "t3")
      /\ tasks (processTasks_tick 60 clk ["t3"] s1).2 !! "t3" = None).
Proof.
  intros clk s s1.
  assert (Hrun : isRunning s = true) by reflexivity.
  assert (Hfresh : tasks s !! "t3" = None) by reflexivity.
  assert (Hpast : instant (mkTime 0 "Local") <= 60) by (cbn; lia).
  assert (Hnodup : NoDup ["t3"]) by (apply NoDup_singleton).
  assert (Horder : forall k, k ∈ ["t3"] <-> is_Some (tasks s1 !! k)).
  { assert (Ht : tasks s1
                 = <["t3" := mkScheduledTask "t3" "nonexistent"
                               ["a@example.com"] "Alice" (mkTime 0 "UTC")]> ∅)
      by reflexivity.
    intros k. rewrite Ht, list_elem_of_singleton, lookup_insert.
    destruct (decide ("t3" = k)) as [<-|Hne].
    - split; [eauto|reflexivity].
    - rewrite lookup_empty. split; [congruence|intros [? ?]; discriminate]. }
  assert (Hrun1 : isRunning s1 = true) by reflexivity.
  assert (Hstored : tasks s1 !! "t3"
                    = Some (mkScheduledTask "t3" "nonexistent"
                              ["a@example.com"] "Alice" (mkTime 0 "UTC")))
    by reflexivity.
  repeat (split; [assumption|]). split.
  - exact (proj1 (proj1 (processTasks_tick_removes_due 60 clk)
                    ["t3"] s1 Hrun1 Hnodup Horder)
             "t3" _ Hstored Hpast).
  - exact (proj2 (processTasks_tick_removes_due 60 clk)
             "t3" "nonexistent" ["a@example.com"] "Alice" (mkTime 0 "Local")
             ["t3"] s Hrun Hfresh Hpast Hnodup Horder).
Defined.

End SchedulerFacts.

(** ** Facts about the drain loop and [ConsumeToken] *)
Module DrainFacts.
Import XRate XRateFacts Rate CanSendFacts QueueFacts.

(** [CanSend] only touches the bucket. *)
Lemma CanSend_frame (t1 t2 t3 : Z) (l : Rate.Limiter) :
  queue (CanSend t1 t2 t3 l).2 = queue l
  /\ logger (CanSend t1 t2 t3 l).2 = logger l
  /\ ctxDone (CanSend t1 t2 t3 l).2 = ctxDone l
  /\ isRunning (CanSend t1 t2 t3 l).2 = isRunning l.
Proof.
  unfold CanSend. destruct (ReserveN t1 1 (limiter l)) as [r lim1].
  repeat case_match; repeat split; reflexivity.
Qed.

(** A granted [CanSend] has debited one token and left a configured
    bucket, last updated at the reading of [ReserveN]. *)
Lemma CanSend_granted (t1 t2 t3 : Z) (l : Rate.Limiter) :
  0 < limit (limiter l) -> 0 < burst (limiter l) ->
  (CanSend t1 t2 t3 l).1 = true ->
  tokens (limiter (CanSend t1 t2 t3 l).2) = advance t1 (limiter l) - tokenUnit
  /\ last (limiter (CanSend t1 t2 t3 l).2) = t1
  /\ limit (limiter (CanSend t1 t2 t3 l).2) = limit (limiter l)
  /\ burst (limiter (CanSend t1 t2 t3 l).2) = burst (limiter l).
Proof.
  intros Hlim Hb. rewrite CanSend_cases by assumption. cbn zeta.
  case_Zcmp; cbn [fst snd]; [|discriminate].
  intros _. repeat split; reflexivity.
Qed.


(** The two ways one drained item is handled. *)
Lemma processItem_cases (ck : ItemClock) (task : EmailTask) (l : Rate.Limiter) :
  let res := CanSend (ck_reserve ck) (ck_delay ck) (ck_cancel ck) l in
  (res.1 = true ->
     logger (processItem ck task l)
       = logger l ++ [mkLog LevelInfo "Processing queued email"
                        (Recipients task)]
     /\ queue (processItem ck task l) = queue l)
  /\ (res.1 = false ->
        queue (processItem ck task l)
          = queue l ++ [mkEmailTask (Recipients task) (Subject task)
                          (Body task) (ck_queue ck + retryDelay)]
        /\ logger (processItem ck task l)
           = logger l ++ [mkLog LevelInfo "Email queued due to rate limit"
                            (Recipients task)]
        /\ limiter (processItem ck task l) = limiter res.2).
Proof.
  intros res. subst res. unfold processItem.
  destruct (CanSend_frame (ck_reserve ck) (ck_delay ck) (ck_cancel ck) l)
    as (Hq & Hlog & _ & _).
  destruct (CanSend (ck_reserve ck) (ck_delay ck) (ck_cancel ck) l)
    as [granted l1]. cbn [fst snd] in *.
  split; intros ->.
  - destruct (WaitN _ (ck_interrupt ck) 1 (ck_wait ck) _) as [e lim3].
    cbn [logger queue set_limiter log_Info]. rewrite Hq, Hlog.
    split; reflexivity.
  - cbn [logger queue limiter set_queue log_Info QueueEmail].
    rewrite Hq, Hlog. repeat split; reflexivity.
Qed.

Lemma processItem_count (ck : ItemClock) (task : EmailTask) (l : Rate.Limiter) :
  (length (queue (processItem ck task l))
   + processed_count (logger (processItem ck task l)))%nat
  = S (length (queue l) + processed_count (logger l)).
Proof.
  destruct (processItem_cases ck task l) as [Hgranted Hrefused].
  destruct (CanSend (ck_reserve ck) (ck_delay ck) (ck_cancel ck) l).1.
  - destruct (Hgranted eq_refl) as [-> ->].
    unfold processed_count. rewrite filter_app, length_app.
    rewrite filter_cons_True by reflexivity. rewrite filter_nil.
    cbn [length]. lia.
  - destruct (Hrefused eq_refl) as (-> & -> & _).
    unfold processed_count. rewrite filter_app, !length_app.
    rewrite filter_cons_False by discriminate. rewrite filter_nil.
    cbn [length]. lia.
Qed.

Lemma processItems_count (clk : nat -> ItemClock) (items : list EmailTask) :
  forall (i : nat) (l : Rate.Limiter),
    (length (queue (processItems clk i items l))
     + processed_count (logger (processItems clk i items l)))%nat
    = (length (queue l) + processed_count (logger l) + length items)%nat.
Proof.
  induction items as [|task items IH]; intros i l; cbn [processItems length].
  - lia.
  - rewrite IH, processItem_count. lia.
Qed.

(** One iteration of the drain loop of a running limiter handles the
    items returned by [GetQueuedEmails], in order, starting from the
    retained queue.  An item for which [CanSend] returns [true] leaves
    one log entry ["Processing queued email"] and is not queued again.
    An item for which [CanSend] returns [false] is put back at the end
    of the queue with [RetryAt] ten seconds after the clock reading of
    its [QueueEmail].  Every item queued before the iteration is, after
    it, either still queued or reported as processed. *)
Theorem processQueue_tick_items :
  (forall (ck : ItemClock) (task : EmailTask) (l : Rate.Limiter),
     let res := CanSend (ck_reserve ck) (ck_delay ck) (ck_cancel ck) l in
     (res.1 = true ->
        logger (processItem ck task l)
          = logger l ++ [mkLog LevelInfo "Processing queued email"
                           (Recipients task)]
        /\ queue (processItem ck task l) = queue l)
     /\ (res.1 = false ->
           queue (processItem ck task l)
             = queue l ++ [mkEmailTask (Recipients task) (Subject task)
                             (Body task) (ck_queue ck + retryDelay)]
           /\ limiter (processItem ck task l) = limiter res.2))
  /\ (forall (now : Z) (clk : nat -> ItemClock) (l : Rate.Limiter),
        isRunning l = true ->
        processQueue_tick now clk l
          = processItems clk 0 (GetQueuedEmails now l).1
              (GetQueuedEmails now l).2
        /\ (length (queue (processQueue_tick now clk l))
            + processed_count (logger (processQueue_tick now clk l)))%nat
           = (length (queue l) + processed_count (logger l))%nat).
Proof.
  split.
  - intros ck task l res.
    destruct (processItem_cases ck task l) as [Hgranted Hrefused].
    split; [exact Hgranted|].
    intros Hres. destruct (Hrefused Hres) as (Hq & _ & Hlim).
    split; assumption.
  - intros now clk l Hrun.
    assert (Htick : processQueue_tick now clk l
                    = processItems clk 0 (GetQueuedEmails now l).1
                        (GetQueuedEmails now l).2).
    { unfold processQueue_tick. rewrite Hrun. cbn [negb].
      destruct (GetQueuedEmails now l). reflexivity. }
    split; [exact Htick|].
    rewrite Htick, processItems_count.
    pose proof (filter_app_complement
                  (fun task => RetryAt task < now) (queue l)) as Hperm.
    apply Permutation_length in Hperm. rewrite length_app in Hperm.
    rewrite GetQueuedEmails_filter. cbn [fst snd logger set_queue queue].
    lia.
Qed.

(** A witness for [processQueue_tick_items]: a running limiter with a
    full bucket of one token and two ready items; the first is granted,
    the second is put back. *)
Lemma processQueue_tick_items_witness :
  let ck := mkItemClock 20 20 20 20 20 None in
  let a := mkEmailTask ["a@example.com"] "s1" "b1" 5 in
  let b := mkEmailTask ["b@example.com"] "s2" "b2" 6 in
  let l := Rate.mkLimiter (NewLimiter 600 1) [a; b] [] true false 1 in
  let l1 := (GetQueuedEmails 20 l).2 in
  let l2 := processItem ck a l1 in
  isRunning l = true
  /\ (CanSend 20 20 20 l1).1 = true
  /\ (CanSend 20 20 20 l2).1 = false
  /\ logger l2 = [mkLog LevelInfo "Processing queued email" ["a@example.com"]]
  /\ queue (processItem ck b l2)
     = [mkEmailTask ["b@example.com"] "s2" "b2" (20 + retryDelay)]
  /\ processQueue_tick 20 (fun _ => ck) l = processItem ck b l2.
Proof.
  intros ck a b l l1 l2.
  assert (Hrun : isRunning l = true) by reflexivity.
  assert (Ha : (CanSend (ck_reserve ck) (ck_delay ck) (ck_cancel ck) l1).1
               = true) by reflexivity.
  assert (Hb : (CanSend (ck_reserve ck) (ck_delay ck) (ck_cancel ck) l2).1
               = false) by reflexivity.
  destruct processQueue_tick_items as [Hitem Htick].
  destruct (proj1 (Hitem ck a l1) Ha) as [Hlog _].
  destruct (proj2 (Hitem ck b l2) Hb) as [Hq _].
  destruct (Htick 20 (fun _ => ck) l Hrun) as [Hfold _].
  repeat (split; [assumption|]). exact Hfold.
Defined.

(** C2, the code at the failing input.  The limiter of the tests is
    started and a mail is queued at instant 0; the tick eleven seconds
    later finds it ready and [CanSend] grants it.  The iteration writes
    the log entry ["Processing queued email"] and takes a second token
    through [WaitN]; nothing is handed to a transport, which the
    limiter does not have.  The mail has left the queue and is nowhere
    else: it is lost, and the full bucket of two tokens is empty. *)
Theorem processQueue_tick_loses_granted_item :
  let now := 11 * 1000000000 in
  let ck := mkItemClock now now now now now None in
  let l0 := Rate.mkLimiter (NewLimiter 600 2) [] [] false false 0 in
  let l := QueueEmail 0 ["a@example.com"] "s" "b" (Rate.Start l0) in
  let a := mkEmailTask ["a@example.com"] "s" "b" (10 * 1000000000) in
  let l' := processQueue_tick now (fun _ => ck) l in
  Rate.New 600 2 = inr l0
  /\ isRunning l = true /\ queue l = [a]
  /\ (GetQueuedEmails now l).1 = [a]
  /\ (CanSend now now now (GetQueuedEmails now l).2).1 = true
  /\ queue l' = []
  /\ logger l'
     = logger l ++ [mkLog LevelInfo "Processing queued email"
                      ["a@example.com"]]
  /\ advance now (limiter l) = 2 * tokenUnit
  /\ tokens (limiter l') = 0
  /\ isRunning l' = true /\ ctxDone l' = false /\ loops l' = loops l.
Proof. vm_compute. repeat split; reflexivity. Qed.




(** The limiter's own loop has the life cycle of the scheduler's:
    [Start] and [Stop] are idempotent, and a loop started after a [Stop]
    returns at its first [select], the context being cancelled for
    good. *)
Lemma limiter_Start_Stop (l : Rate.Limiter) :
  Rate.Start (Rate.Start l) = Rate.Start l
  /\ Rate.Stop (Rate.Stop l) = Rate.Stop l
  /\ (forall pick now clk,
        let l3 := Rate.Start (Rate.Stop (Rate.Start l)) in
        isRunning l3 = true
        /\ processQueue_select false pick now clk l3 = exit_loop l3).
Proof.
  unfold Rate.Start, Rate.Stop.
  destruct (isRunning l) eqn:Hrun; cbn; rewrite ?Hrun; cbn;
    repeat split; reflexivity.
Qed.

End DrainFacts.

(** ** More about the limiter and its retry queue *)
Module LimiterMore.
Import XRate XRateFacts Rate CanSendFacts QueueFacts DrainFacts.






Lemma filter_retained (now t : Z) (q : list EmailTask) :
  t <= now ->
  filter (fun task => RetryAt task < t)
    (filter (fun task => ~ RetryAt task < now) q) = []
  /\ filter (fun task => ~ RetryAt task < t)
       (filter (fun task => ~ RetryAt task < now) q)
     = filter (fun task => ~ RetryAt task < now) q.
Proof.
  intros Ht. induction q as [|task q [IH1 IH2]]; [split; reflexivity|].
  destruct (decide (RetryAt task < now)) as [Hr|Hr].
  - rewrite (filter_cons_False _ task) by (intros Hn; apply Hn, Hr).
    split; assumption.
  - rewrite (filter_cons_True _ task) by exact Hr.
    rewrite (filter_cons_False _ task) by lia.
    rewrite (filter_cons_True _ task) by lia.
    rewrite IH2. split; [assumption|reflexivity].
Qed.

(** Draining is idempotent in time: once [GetQueuedEmails] has run at
    [now], a second call at [now] or at any earlier time returns nothing
    and leaves the queue as it is. *)
Theorem GetQueuedEmails_again (now t : Z) (l : Rate.Limiter) :
  t <= now ->
  GetQueuedEmails t (GetQueuedEmails now l).2
  = ([], (GetQueuedEmails now l).2).
Proof.
  intros Ht. rewrite !GetQueuedEmails_filter. cbn [fst snd queue set_queue].
  destruct (filter_retained now t (queue l) Ht) as [-> ->].
  destruct l. reflexivity.
Qed.

(** A witness for [GetQueuedEmails_again]. *)
Lemma GetQueuedEmails_again_witness :
  let a := mkEmailTask ["a@example.com"] "s" "b" 5 in
  let b := mkEmailTask ["b@example.com"] "s" "b" 50 in
  let l := Rate.mkLimiter (NewLimiter 600 2) [a; b] [] false false 0 in
  7 <= 20
  /\ (GetQueuedEmails 20 l).1 = [a]
  /\ GetQueuedEmails 7 (GetQueuedEmails 20 l).2
     = ([], (GetQueuedEmails 20 l).2).
Proof.
  intros a b l.
  assert (Ht : 7 <= 20) by (vm_compute; discriminate).
  split; [exact Ht|]. split; [reflexivity|].
  exact (GetQueuedEmails_again 20 7 l Ht).
Defined.

Lemma processItems_queue (clk : nat -> ItemClock) (items : list EmailTask) :
  forall (i : nat) (l : Rate.Limiter),
  exists refused : list (nat * EmailTask),
    refused `sublist_of` imap (fun k task => ((i + k)%nat, task)) items
    /\ queue (processItems clk i items l)
       = queue l
         ++ ((fun kt : nat * EmailTask =>
                mkEmailTask (Recipients kt.2) (Subject kt.2) (Body kt.2)
                  (ck_queue (clk kt.1) + retryDelay)) <$> refused).
Proof.
  induction items as [|task items IH]; intros i l; cbn [processItems].
  - exists []. split; [constructor|]. cbn. rewrite app_nil_r. reflexivity.
  - destruct (IH (S i) (processItem (clk i) task l))
      as (refused & Hsub & Hq).
    assert (Hshift : imap (fun k task0 => ((i + k)%nat, task0)) (task :: items)
                     = ((i + 0)%nat, task)
                       :: imap (fun k task0 => ((S i + k)%nat, task0)) items).
    { cbn [imap]. f_equal. apply imap_ext. intros k task0 _. cbn.
      f_equal. lia. }
    rewrite Hshift. rewrite Nat.add_0_r.
    destruct (processItem_cases (clk i) task l) as [Hgranted Hrefused].
    destruct (CanSend (ck_reserve (clk i)) (ck_delay (clk i))
                (ck_cancel (clk i)) l).1.
    + destruct (Hgranted eq_refl) as [_ Hsame]. exists refused.
      split; [apply sublist_cons; exact Hsub|].
      rewrite Hq, Hsame. reflexivity.
    + destruct (Hrefused eq_refl) as (Happ & _ & _).
      exists ((i, task) :: refused).
      split; [apply sublist_skip; exact Hsub|].
      rewrite Hq, Happ, <- app_assoc. reflexivity.
Qed.

(** An iteration of the drain loop never drops, reorders or alters an
    item that is not yet ready, and puts back at most one copy of each
    ready item: the queue afterwards is the retained items in their
    order, followed by copies of some of the ready items, each ready
    item used at most once and in the order of the queue, the copy of
    the [k]-th ready item carrying its recipients, subject and body and
    a [RetryAt] ten seconds after the reading that the [QueueEmail] of
    that item took. *)
Theorem processQueue_tick_queue (now : Z) (clk : nat -> ItemClock)
    (l : Rate.Limiter) :
  isRunning l = true ->
  let ready := filter (fun task => (RetryAt task < now)%Z) (queue l) in
  exists refused : list (nat * EmailTask),
    refused `sublist_of` imap (fun k task => (k, task)) ready
    /\ queue (processQueue_tick now clk l)
       = filter (fun task => now <= RetryAt task) (queue l)
         ++ ((fun kt : nat * EmailTask =>
                mkEmailTask (Recipients kt.2) (Subject kt.2) (Body kt.2)
                  (ck_queue (clk kt.1) + retryDelay)) <$> refused).
Proof.
  intros Hrun ready. unfold processQueue_tick. rewrite Hrun. cbn [negb].
  rewrite GetQueuedEmails_filter.
  destruct (processItems_queue clk
              (filter (fun task => RetryAt task < now) (queue l)) 0
              (set_queue (filter (fun task => ~ RetryAt task < now) (queue l))
                 l))
    as (refused & Hsub & Hq).
  exists refused. split; [exact Hsub|].
  rewrite Hq. cbn [queue set_queue]. f_equal.
  apply list_filter_iff. intros task. lia.
Qed.

(** A witness for [processQueue_tick_queue]: one ready item refused on
    an empty bucket, one item not yet ready. *)
Lemma processQueue_tick_queue_witness :
  let ck := mkItemClock 20 20 20 20 20 None in
  let a := mkEmailTask ["a@example.com"] "s1" "b1" 5 in
  let b := mkEmailTask ["b@example.com"] "s2" "b2" 50 in
  let l := Rate.mkLimiter (XRate.mkLimiter 600 2 0 20 20) [a; b] [] true
             false 1 in
  isRunning l = true
  /\ queue (processQueue_tick 20 (fun _ => ck) l)
     = [b; mkEmailTask ["a@example.com"] "s1" "b1" (20 + retryDelay)]
  /\ exists refused : list (nat * EmailTask),
       refused `sublist_of` [(0%nat, a)]
       /\ queue (processQueue_tick 20 (fun _ => ck) l)
          = [b] ++ ((fun kt : nat * EmailTask =>
                       mkEmailTask (Recipients kt.2) (Subject kt.2)
                         (Body kt.2) (20 + retryDelay)) <$> refused).
Proof.
  intros ck a b l.
  assert (Hrun : isRunning l = true) by reflexivity.
  split; [exact Hrun|]. split; [reflexivity|].
  destruct (processQueue_tick_queue 20 (fun _ => ck) l Hrun)
    as (refused & Hsub & Hq).
  exists refused. split; [exact Hsub|exact Hq].
Defined.

(** Once [Stop] has been called, [ConsumeToken] fails for good: the
    context made by [New] stays cancelled, so every later call, also
    after a new [Start], returns the cancellation error at once and
    leaves the limiter as it is. *)
Theorem ConsumeToken_after_Stop (l : Rate.Limiter) :
  isRunning l = true -> 0 < burst (limiter l) ->
  ctxDone (Rate.Stop l) = true
  /\ isRunning (Rate.Start (Rate.Stop l)) = true
  /\ ctxDone (Rate.Start (Rate.Stop l)) = true
  /\ (forall interrupt t,
        ConsumeToken interrupt t (Rate.Stop l)
        = (Some ErrCanceled, Rate.Stop l)
        /\ ConsumeToken interrupt t (Rate.Start (Rate.Stop l))
           = (Some ErrCanceled, Rate.Start (Rate.Stop l))).
Proof.
  intros Hrun Hb. unfold Rate.Start, Rate.Stop. rewrite Hrun. cbn.
  repeat split; unfold ConsumeToken, WaitN, wait_enter; cbn;
    rewrite (proj2 (Z.ltb_ge (burst (limiter l)) 1)) by lia; reflexivity.
Qed.

(** A witness for [ConsumeToken_after_Stop]. *)
Lemma ConsumeToken_after_Stop_witness :
  let l := Rate.Start (Rate.mkLimiter (NewLimiter 600 2) [] [] false false 0) in
  isRunning l = true /\ 0 < burst (limiter l)
  /\ ConsumeToken None 100 (Rate.Start (Rate.Stop l))
     = (Some ErrCanceled, Rate.Start (Rate.Stop l)).
Proof.
  intros l.
  assert (Hrun : isRunning l = true) by reflexivity.
  assert (Hb : 0 < burst (limiter l)) by reflexivity.
  split; [exact Hrun|]. split; [exact Hb|].
  destruct (ConsumeToken_after_Stop l Hrun Hb) as (_ & _ & _ & Hfail).
  exact (proj2 (Hfail None 100)).
Defined.

(** While the limiter is stopped the retry queue only grows: a pass of
    a loop through its [select] leaves the queue and the bucket as they
    are, and [QueueEmail] still appends. *)
Theorem stopped_limiter_keeps_queue (l : Rate.Limiter) :
  isRunning l = false ->
  (forall tickReady pick now clk,
     queue (processQueue_select tickReady pick now clk l) = queue l
     /\ limiter (processQueue_select tickReady pick now clk l) = limiter l
     /\ isRunning (processQueue_select tickReady pick now clk l) = false)
  /\ (forall now recipients subject body,
        queue (QueueEmail now recipients subject body l)
        = queue l ++ [mkEmailTask recipients subject body (now + retryDelay)]
        /\ isRunning (QueueEmail now recipients subject body l) = false).
Proof.
  intros Hstop. split.
  - intros tickReady pick now clk.
    unfold processQueue_select, processQueue_tick. rewrite Hstop.
    destruct (loops l); [repeat split; assumption|].
    destruct (select_case _ _ _) as [[]|]; repeat split; assumption.
  - intros now recipients subject body. cbn. split; [reflexivity|exact Hstop].
Qed.

(** A witness for [stopped_limiter_keeps_queue]: a stopped limiter whose
    loop has not left yet. *)
Lemma stopped_limiter_keeps_queue_witness :
  let a := mkEmailTask ["a@example.com"] "s" "b" 5 in
  let l := Rate.mkLimiter (NewLimiter 600 2) [a] [] false true 1 in
  isRunning l = false
  /\ queue (processQueue_select true CaseTick 20
              (fun _ => mkItemClock 20 20 20 20 20 None) l) = [a].
Proof.
  intros a l.
  assert (Hstop : isRunning l = false) by reflexivity.
  split; [exact Hstop|].
  destruct (stopped_limiter_keeps_queue l Hstop) as [Hpass _].
  exact (proj1 (Hpass true CaseTick 20 (fun _ => mkItemClock 20 20 20 20 20 None))).
Defined.

End LimiterMore.


(** ** More about the scheduler *)
Module SchedulerMore.
Import Scheduler SchedulerFacts.

Section WithData.
Context {Data : Type}.
Implicit Types (s : Scheduler Data) (task : ScheduledTask Data).

(** [Schedule] with an identifier that is not pending always succeeds,
    whatever the send-at and the recipients: the task can be looked up
    under its identifier with the send-at at the same instant and in
    UTC, every other pending task is as before, and the limiter and the
    loop state are untouched. *)
Theorem Schedule_stores (id template : string) (recipients : list string)
    (data : Data) (sendAt : Time) s :
  tasks s !! id = None ->
  let res := Schedule id template recipients data sendAt s in
  res.1 = None
  /\ tasks res.2 !! id
     = Some (mkScheduledTask id template recipients data
               (mkTime (instant sendAt) "UTC"))
  /\ (forall id', id' <> id -> tasks res.2 !! id' = tasks s !! id')
  /\ rateLimiter res.2 = rateLimiter s
  /\ isRunning res.2 = isRunning s
  /\ ctxDone res.2 = ctxDone s.
Proof.
  intros Hfresh res. subst res. unfold Schedule. rewrite Hfresh.
  cbn [fst snd tasks log set_tasks rateLimiter isRunning ctxDone].
  split; [reflexivity|]. split; [apply lookup_insert_eq|].
  split; [|repeat split; reflexivity].
  intros id' Hne. apply lookup_insert_ne. congruence.
Qed.

Lemma visit_nothing_due (now : Z) (clk : string -> Rate.ItemClock)
    (order : list string) :
  forall (toDelete : list string) (calls : list (string * Outcome)) s,
    (forall id task, tasks s !! id = Some task -> now < instant (SendAt task)) ->
    visit now clk order toDelete calls s = (toDelete, calls, s).
Proof.
  induction order as [|id rest IH]; intros toDelete calls s Hlater;
    cbn [visit]; [reflexivity|].
  destruct (tasks s !! id) as [task|] eqn:Hid; [|apply IH, Hlater].
  unfold due. rewrite (proj2 (Z.leb_gt _ _)) by (apply (Hlater id), Hid).
  apply IH, Hlater.
Qed.

(** A tick on which no pending task is due changes nothing at all: no
    dispatch, and the scheduler, its table and the shared limiter are
    exactly as before, in whatever order the table is visited. *)
Theorem processTasks_tick_nothing_due (now : Z)
    (clk : string -> Rate.ItemClock) (order : list string) s :
  isRunning s = true ->
  (forall id task, tasks s !! id = Some task -> now < instant (SendAt task)) ->
  processTasks_tick now clk order s = ([], s).
Proof.
  intros Hrun Hlater. unfold processTasks_tick. rewrite Hrun. cbn [negb].
  rewrite visit_nothing_due by exact Hlater. cbn [foldl].
  destruct s. reflexivity.
Qed.

(** An identifier is free again once its task has been dispatched: after
    the tick that removes a due task, [Schedule] with the same
    identifier succeeds and stores the new task. *)
Theorem Schedule_after_dispatch (now : Z) (clk : string -> Rate.ItemClock)
    (order : list string) (id template : string) (recipients : list string)
    (data : Data) (sendAt : Time) s task :
  isRunning s = true -> NoDup order ->
  (forall k, k ∈ order <-> is_Some (tasks s !! k)) ->
  tasks s !! id = Some task -> instant (SendAt task) <= now ->
  let s1 := (processTasks_tick now clk order s).2 in
  (Schedule id template recipients data sendAt s).1 = Some (ErrTaskExists id)
  /\ (Schedule id template recipients data sendAt s1).1 = None
  /\ tasks (Schedule id template recipients data sendAt s1).2 !! id
     = Some (mkScheduledTask id template recipients data (UTC sendAt)).
Proof.
  intros Hrun Hnodup Horder Hid Hdue s1.
  destruct (processTasks_tick_spec now clk order s Hrun Hnodup Horder)
    as (Hremoved & _).
  destruct (Hremoved id task Hid Hdue) as [Hgone _]. fold s1 in Hgone.
  destruct (Schedule_fresh id template recipients data sendAt s1 Hgone)
    as (Hnil & Hstored & _).
  split; [unfold Schedule; rewrite Hid; reflexivity|].
  split; assumption.
Qed.

End WithData.

(** A witness for [Schedule_stores]. *)
Lemma Schedule_stores_witness :
  let s : Scheduler string :=
    New (fun _ _ _ => true) (fun _ _ => None)
        (Rate.mkLimiter (XRate.NewLimiter 600 2) [] [] false false 0) in
  tasks s !! "t1" = None
  /\ tasks (Schedule "t1" "welcome" [] "Alice" (mkTime 300 "Local") s).2 !! "t1"
     = Some (mkScheduledTask "t1" "welcome" [] "Alice" (mkTime 300 "UTC")).
Proof.
  intros s.
  assert (Hfresh : tasks s !! "t1" = None) by reflexivity.
  split; [exact Hfresh|].
  exact (proj1 (proj2 (Schedule_stores "t1" "welcome" [] "Alice"
                         (mkTime 300 "Local") s Hfresh))).
Defined.

(** A witness for [processTasks_tick_nothing_due]: one task due in the
    future. *)
Lemma processTasks_tick_nothing_due_witness :
  let clk := fun _ : string => Rate.mkItemClock 60 60 60 60 60 None in
  let s : Scheduler string :=
    (Schedule "t1" "welcome" ["a@example.com"] "Alice" (mkTime 300 "Local")
       (Start (New (fun _ _ _ => true) (fun _ _ => None)
                 (Rate.mkLimiter (XRate.NewLimiter 600 2) [] [] false false
                    0)))).2 in
  isRunning s = true
  /\ (forall id task, tasks s !! id = Some task -> 60 < instant (SendAt task))
  /\ processTasks_tick 60 clk ["t1"] s = ([], s).
Proof.
  intros clk s.
  assert (Hrun : isRunning s = true) by reflexivity.
  assert (Hlater : forall id task,
            tasks s !! id = Some task -> 60 < instant (SendAt task)).
  { assert (Ht : tasks s
                 = <["t1" := mkScheduledTask "t1" "welcome" ["a@example.com"]
                               "Alice" (mkTime 300 "UTC")]> ∅)
      by reflexivity.
    intros id task. rewrite Ht, lookup_insert.
    destruct (decide ("t1" = id)); [|rewrite lookup_empty; discriminate].
    intros [= <-]. reflexivity. }
  split; [exact Hrun|]. split; [exact Hlater|].
  exact (processTasks_tick_nothing_due 60 clk ["t1"] s Hrun Hlater).
Defined.

(** A witness for [Schedule_after_dispatch]. *)
Lemma Schedule_after_dispatch_witness :
  let clk := fun _ : string => Rate.mkItemClock 60 60 60 60 60 None in
  let task := mkScheduledTask "t1" "welcome" ["a@example.com"] "Alice"
                (mkTime 30 "UTC") in
  let s : Scheduler string :=
    (Schedule "t1" "welcome" ["a@example.com"] "Alice" (mkTime 30 "Local")
       (Start (New (fun _ _ _ => true) (fun _ _ => None)
                 (Rate.mkLimiter (XRate.NewLimiter 600 2) [] [] false false
                    0)))).2 in
  isRunning s = true /\ NoDup ["t1"]
  /\ (forall k, k ∈ ["t1"] <-> is_Some (tasks s !! k))
  /\ tasks s !! "t1" = Some task /\ instant (SendAt task) <= 60
  /\ (Schedule "t1" "again" [] "Bob" (mkTime 500 "UTC")
        (processTasks_tick 60 clk ["t1"] s).2).1 = None.
Proof.
  intros clk task s.
  assert (Hrun : isRunning s = true) by reflexivity.
  assert (Hnodup : NoDup ["t1"]) by (apply NoDup_singleton).
  assert (Ht : tasks s = <["t1" := task]> ∅) by reflexivity.
  assert (Horder : forall k, k ∈ ["t1"] <-> is_Some (tasks s !! k)).
  { intros k. rewrite Ht, list_elem_of_singleton, lookup_insert.
    destruct (decide ("t1" = k)) as [<-|Hne].
    - split; [eauto|reflexivity].
    - rewrite lookup_empty. split; [congruence|intros [? ?]; discriminate]. }
  assert (Hid : tasks s !! "t1" = Some task) by reflexivity.
  assert (Hdue : instant (SendAt task) <= 60) by (cbn; lia).
  split; [exact Hrun|]. split; [exact Hnodup|]. split; [exact Horder|].
  split; [exact Hid|]. split; [exact Hdue|].
  exact (proj1 (proj2 (Schedule_after_dispatch 60 clk ["t1"] "t1" "again" []
                         "Bob" (mkTime 500 "UTC") s task Hrun Hnodup Horder
                         Hid Hdue))).
Defined.

Section Dispatch.
Context {Data : Type}.
Implicit Types (s : Scheduler Data) (task : ScheduledTask Data).

Lemma processTask_templates (ck : Rate.ItemClock) (id : string) task s :
  templates (processTask ck id task s).2 = templates s.
Proof.
  unfold processTask. cbn [templates log].
  destruct (templates s (Template task) (TaskData task)) as [[body subject]|];
    [|reflexivity].
  cbn [rateLimiter log].
  destruct (Rate.CanSend _ _ _ (rateLimiter s)) as [[] rl]; [|reflexivity].
  cbn [sender set_rateLimiter]. case_match; reflexivity.
Qed.

(** What one dispatch adds to the retry queue: the mail of the task when
    it ends deferred, nothing otherwise. *)
Lemma processTask_queue (clk : string -> Rate.ItemClock) (id : string)
    task s :
  tasks s !! id = Some task ->
  let res := processTask (clk id) id task s in
  (isDeferred res.1 = false
   /\ Rate.queue (rateLimiter res.2) = Rate.queue (rateLimiter s))
  \/ (exists mail,
        res.1 = Deferred /\ deferredMail clk s id = Some mail
        /\ Rate.queue (rateLimiter res.2)
           = Rate.queue (rateLimiter s) ++ [mail]).
Proof.
  intros Hid res. subst res.
  pose proof (processTask_outcome (clk id) id task s) as Hout.
  unfold deferredMail. rewrite Hid.
  destruct (templates s (Template task) (TaskData task)) as [[body subject]|].
  - cbn zeta in Hout.
    destruct (DrainFacts.CanSend_frame (Rate.ck_reserve (clk id))
                (Rate.ck_delay (clk id)) (Rate.ck_cancel (clk id))
                (rateLimiter s)) as (Hq & _).
    destruct (Rate.CanSend (Rate.ck_reserve (clk id)) (Rate.ck_delay (clk id))
                (Rate.ck_cancel (clk id)) (rateLimiter s)) as [[] rl];
      cbn [fst snd] in *; destruct Hout as [-> ->].
    + left. split; [destruct (sender s _ _ _); reflexivity|exact Hq].
    + right. eexists. split; [reflexivity|]. split; [reflexivity|].
      cbn. rewrite Hq. reflexivity.
  - destruct Hout as [-> ->]. left. split; reflexivity.
Qed.

Lemma visit_queue (now : Z) (clk : string -> Rate.ItemClock)
    (order : list string) :
  forall (toDelete : list string) (calls : list (string * Outcome)) s,
  exists (newCalls : list (string * Outcome))
         (mails : list Rate.EmailTask),
    (visit now clk order toDelete calls s).1.2 = calls ++ newCalls
    /\ Rate.queue (rateLimiter (visit now clk order toDelete calls s).2)
       = Rate.queue (rateLimiter s) ++ mails
    /\ Forall2 (fun c mail => deferredMail clk s c.1 = Some mail)
         (List.filter (fun c => isDeferred c.2) newCalls) mails.
Proof.
  induction order as [|id rest IH]; intros toDelete calls s; cbn [visit].
  - exists [], []. rewrite !app_nil_r. repeat split. constructor.
  - destruct (tasks s !! id) as [task|] eqn:Hid; [|apply IH].
    destruct (due now task); [|apply IH].
    pose proof (processTask_queue clk id task s Hid) as Hq.
    destruct (processTask_frame (clk id) id task s) as (Ht & _).
    pose proof (processTask_templates (clk id) id task s) as Htpl.
    destruct (processTask (clk id) id task s) as [o s1].
    cbn [fst snd] in Hq, Ht, Htpl.
    destruct (IH (toDelete ++ [id]) (calls ++ [(id, o)]) s1)
      as (newCalls & mails & Hcalls & Hqueue & Hall).
    assert (Hsame : forall id', deferredMail clk s1 id' = deferredMail clk s id')
      by (intros id'; unfold deferredMail; rewrite Ht, Htpl; reflexivity).
    assert (Hall' : Forall2 (fun c mail => deferredMail clk s c.1 = Some mail)
                      (List.filter (fun c => isDeferred c.2) newCalls) mails).
    { eapply Forall2_impl; [exact Hall|].
      intros c mail Hc. rewrite <- Hsame. exact Hc. }
    destruct Hq as [[Hnot Hq]|(mail & -> & Hmail & Hq)].
    + exists ((id, o) :: newCalls), mails.
      rewrite Hcalls, Hqueue, Hq, <- app_assoc.
      split; [reflexivity|]. split; [reflexivity|].
      cbn [List.filter snd]. rewrite Hnot. exact Hall'.
    + exists ((id, Deferred) :: newCalls), (mail :: mails).
      rewrite Hcalls, Hqueue, Hq, <- !app_assoc.
      split; [reflexivity|]. split; [reflexivity|].
      cbn [List.filter snd isDeferred]. constructor; assumption.
Qed.

(** Every mail deferred by a tick is in the retry queue afterwards, and
    nothing else is added to it: the queue of the shared limiter after
    the tick is the queue before it followed by one mail for each
    dispatch that ended deferred, in the order of the dispatches, and
    the mail of a dispatch is the mail of its task: the recipients of
    the task, its rendered (or default) subject and body, due ten
    seconds after the reading that its [QueueEmail] took. *)
Theorem processTasks_tick_deferred (now : Z) (clk : string -> Rate.ItemClock)
    (order : list string) s :
  let res := processTasks_tick now clk order s in
  exists mails : list Rate.EmailTask,
    Rate.queue (rateLimiter res.2) = Rate.queue (rateLimiter s) ++ mails
    /\ Forall2 (fun c mail => deferredMail clk s c.1 = Some mail)
         (List.filter (fun c => isDeferred c.2) res.1) mails.
Proof.
  intros res. subst res. unfold processTasks_tick.
  destruct (isRunning s); cbn [negb].
  - destruct (visit_queue now clk order [] [] s)
      as (newCalls & mails & Hcalls & Hqueue & Hall).
    destruct (visit now clk order [] [] s) as [[toDelete calls] s1].
    cbn [fst snd rateLimiter set_tasks] in *. subst calls.
    exists mails. split; [exact Hqueue|exact Hall].
  - exists []. cbn. rewrite app_nil_r. split; [reflexivity|constructor].
Qed.

(** A template name that the template manager does not hold is not
    refused by [Schedule] but dropped at dispatch: when no due task
    names a template of the manager, as with the empty manager that
    [main] falls back to, every dispatch of the tick ends in a render
    failure, and the limiter, its bucket and its queue are left
    untouched. *)
Theorem processTasks_tick_unknown_templates (now : Z)
    (clk : string -> Rate.ItemClock) (order : list string)
    (tm : Templates.TemplateManager Data) s :
  templates s = renderOf tm ->
  (forall id task,
     tasks s !! id = Some task -> instant (SendAt task) <= now ->
     Templates.Templates tm !! Template task = None) ->
  Forall (fun c => c.2 = RenderFailed) (processTasks_tick now clk order s).1
  /\ rateLimiter (processTasks_tick now clk order s).2 = rateLimiter s.
Proof.
  intros Htm Hunknown. unfold processTasks_tick.
  destruct (isRunning s); cbn [negb]; [|split; [constructor|reflexivity]].
  assert (Hvisit : forall (toDelete : list string) calls s0,
            tasks s0 = tasks s -> templates s0 = templates s ->
            Forall (fun c => c.2 = RenderFailed) calls ->
            Forall (fun c => c.2 = RenderFailed)
              (visit now clk order toDelete calls s0).1.2
            /\ rateLimiter (visit now clk order toDelete calls s0).2
               = rateLimiter s0).
  { induction order as [|id rest IH]; intros toDelete calls s0 Ht Htpl Hall;
      cbn [visit]; [split; [exact Hall|reflexivity]|].
    destruct (tasks s0 !! id) as [task|] eqn:Hid; [|apply IH; assumption].
    destruct (due now task) eqn:Hdue; [|apply IH; assumption].
    pose proof (processTask_outcome (clk id) id task s0) as Hout.
    destruct (processTask_frame (clk id) id task s0) as (Ht1 & _).
    assert (Htpl1 : templates (processTask (clk id) id task s0).2
                    = templates s0).
    { unfold processTask. cbn [templates log].
      repeat case_match; reflexivity. }
    assert (Hnone : Templates.Templates tm !! Template task = None).
    { apply (Hunknown id); [rewrite <- Ht; exact Hid|apply Z.leb_le, Hdue]. }
    rewrite Htpl, Htm in Hout. unfold renderOf, Templates.Render in Hout.
    rewrite Hnone in Hout. destruct Hout as [Ho Hrl].
    destruct (processTask (clk id) id task s0) as [o s1]. cbn [fst snd] in *.
    destruct (IH (toDelete ++ [id]) (calls ++ [(id, o)]) s1) as [Hall1 Hrl1];
      [congruence|congruence| |].
    { apply Forall_app. split; [exact Hall|]. constructor; [exact Ho|].
      constructor. }
    split; [exact Hall1|congruence]. }
  destruct (Hvisit [] [] s eq_refl eq_refl (Forall_nil_2 _)) as [Hall Hrl].
  destruct (visit now clk order [] [] s) as [[toDelete calls] s1].
  cbn [fst snd rateLimiter set_tasks] in *. split; assumption.
Qed.

(** A template without a ["subject"] block is mailed under the default
    subject: when [Render] gives an empty subject, the mail that
    [processTask] sends, or hands to the retry queue when [CanSend]
    refuses, carries ["Scheduled email from RuneBird (<template>)"]. *)
Theorem processTask_default_subject (ck : Rate.ItemClock) (id : string)
    (tm : Templates.TemplateManager Data) (tmpl : Templates.Template Data)
    (body : string) task s :
  templates s = renderOf tm ->
  Templates.Templates tm !! Template task = Some tmpl ->
  Templates.Execute tmpl (TaskData task) = inr body ->
  Templates.Lookup_subject tmpl = None ->
  let subject := "Scheduled email from RuneBird (" +:+ Template task +:+ ")" in
  let res := Rate.CanSend (Rate.ck_reserve ck) (Rate.ck_delay ck)
               (Rate.ck_cancel ck) (rateLimiter s) in
  (res.1 = true ->
     (processTask ck id task s).1
     = (if sender s (Recipients task) subject body then Sent else SendFailed))
  /\ (res.1 = false ->
        (processTask ck id task s).1 = Deferred
        /\ Rate.queue (rateLimiter (processTask ck id task s).2)
           = Rate.queue (rateLimiter s)
             ++ [Rate.mkEmailTask (Recipients task) subject body
                   (Rate.ck_queue ck + Rate.retryDelay)]).
Proof.
  intros Htm Htmpl Hexec Hsubj subject res.
  pose proof (processTask_outcome ck id task s) as Hout.
  rewrite Htm in Hout. unfold renderOf, Templates.Render in Hout.
  rewrite Htmpl, Hexec, Hsubj in Hout. cbn zeta in Hout.
  rewrite decide_True in Hout by reflexivity. fold subject res in Hout.
  destruct (DrainFacts.CanSend_frame (Rate.ck_reserve ck) (Rate.ck_delay ck)
              (Rate.ck_cancel ck) (rateLimiter s)) as (Hq & _).
  fold res in Hq.
  split; intros Hres; rewrite Hres in Hout; destruct Hout as [Ho Hrl].
  - exact Ho.
  - split; [exact Ho|]. rewrite Hrl. cbn. rewrite Hq. reflexivity.
Qed.

(** [Schedule] accepts a task without recipients, and its dispatch costs
    a token for nothing: when [CanSend] grants, [Send] refuses the empty
    recipient list before any SMTP call, the dispatch ends as a send
    failure, and the token that [CanSend] took stays taken. *)
Theorem processTask_no_recipients (ck : Rate.ItemClock) (id : string)
    (sendMail : Email.SmtpCall -> option string) (snd : Email.Sender)
    (body subject : string) task s :
  sender s = sendOf sendMail snd ->
  templates s (Template task) (TaskData task) = Some (body, subject) ->
  Recipients task = [] ->
  0 < XRate.limit (Rate.limiter (rateLimiter s)) ->
  0 < XRate.burst (Rate.limiter (rateLimiter s)) ->
  (Rate.CanSend (Rate.ck_reserve ck) (Rate.ck_delay ck) (Rate.ck_cancel ck)
     (rateLimiter s)).1 = true ->
  (processTask ck id task s).1 = SendFailed
  /\ XRate.tokens (Rate.limiter (rateLimiter (processTask ck id task s).2))
     = XRate.advance (Rate.ck_reserve ck) (Rate.limiter (rateLimiter s))
       - XRate.tokenUnit
  /\ (forall subject' body',
        Email.Send sendMail [] subject' body' snd
        = (Some Email.ErrNoRecipients, [])).
Proof.
  intros Hsender Hrender Hnone Hlim Hb Hgranted.
  pose proof (processTask_outcome ck id task s) as Hout.
  rewrite Hrender in Hout. cbn zeta in Hout. rewrite Hgranted in Hout.
  rewrite Hsender, Hnone in Hout. unfold sendOf in Hout. cbn in Hout.
  destruct Hout as [Ho Hrl]. split; [exact Ho|]. split; [|reflexivity].
  rewrite Hrl.
  apply (DrainFacts.CanSend_granted _ _ _ _ Hlim Hb Hgranted).
Qed.

End Dispatch.

(** A witness for [processTasks_tick_unknown_templates]: the empty
    template manager and one due task. *)
Lemma processTasks_tick_unknown_templates_witness :
  let clk := fun _ : string => Rate.mkItemClock 60 60 60 60 60 None in
  let tm : Templates.TemplateManager string := Templates.mkTemplateManager ∅ in
  let s : Scheduler string :=
    (Schedule "t3" "nonexistent" ["a@example.com"] "Alice" (mkTime 0 "Local")
       (Start (New (fun _ _ _ => true) (renderOf tm)
                 (Rate.mkLimiter (XRate.NewLimiter 600 2) [] [] false false
                    0)))).2 in
  templates s = renderOf tm
  /\ (processTasks_tick 60 clk ["t3"] s).1 = [("t3", RenderFailed)]
  /\ rateLimiter (processTasks_tick 60 clk ["t3"] s).2 = rateLimiter s.
Proof.
  intros clk tm s.
  assert (Htm : templates s = renderOf tm) by reflexivity.
  assert (Hunknown : forall id task,
            tasks s !! id = Some task -> instant (SendAt task) <= 60 ->
            Templates.Templates tm !! Template task = None)
    by (intros; apply lookup_empty).
  split; [exact Htm|]. split; [reflexivity|].
  exact (proj2 (processTasks_tick_unknown_templates 60 clk ["t3"] tm s Htm
                  Hunknown)).
Defined.

(** A witness for [processTask_default_subject]: a template without a
    subject block, dispatched on an empty bucket. *)
Lemma processTask_default_subject_witness :
  let ck := Rate.mkItemClock 60 60 60 60 60 None in
  let tmpl : Templates.Template string :=
    Templates.mkTemplate (fun name => inr ("<p>Hi " +:+ name +:+ "</p>"))
      None in
  let tm := Templates.mkTemplateManager (<["welcome" := tmpl]> ∅) in
  let task := mkScheduledTask "t1" "welcome" ["a@example.com"] "Alice"
                (mkTime 30 "UTC") in
  let s : Scheduler string :=
    New (fun _ _ _ => true) (renderOf tm)
      (Rate.mkLimiter (XRate.mkLimiter 600 2 0 60 60) [] [] false false 0) in
  templates s = renderOf tm
  /\ Templates.Templates tm !! Template task = Some tmpl
  /\ Templates.Execute tmpl (TaskData task) = inr "<p>Hi Alice</p>"
  /\ Templates.Lookup_subject tmpl = None
  /\ (Rate.CanSend 60 60 60 (rateLimiter s)).1 = false
  /\ Rate.queue (rateLimiter (processTask ck "t1" task s).2)
     = [Rate.mkEmailTask ["a@example.com"]
          "Scheduled email from RuneBird (welcome)" "<p>Hi Alice</p>"
          (60 + Rate.retryDelay)].
Proof.
  intros ck tmpl tm task s.
  assert (Htm : templates s = renderOf tm) by reflexivity.
  assert (Htmpl : Templates.Templates tm !! Template task = Some tmpl)
    by (apply lookup_insert_eq).
  assert (Hexec : Templates.Execute tmpl (TaskData task)
                  = inr "<p>Hi Alice</p>") by reflexivity.
  assert (Hsubj : Templates.Lookup_subject tmpl = None) by reflexivity.
  assert (Hres : (Rate.CanSend (Rate.ck_reserve ck) (Rate.ck_delay ck)
                    (Rate.ck_cancel ck) (rateLimiter s)).1 = false)
    by reflexivity.
  split; [exact Htm|]. split; [exact Htmpl|]. split; [exact Hexec|].
  split; [exact Hsubj|]. split; [exact Hres|].
  exact (proj2 (proj2 (processTask_default_subject ck "t1" tm tmpl
                         "<p>Hi Alice</p>" task s Htm Htmpl Hexec Hsubj)
                  Hres)).
Defined.

(** A witness for [processTask_no_recipients]. *)
Lemma processTask_no_recipients_witness :
  let ck := Rate.mkItemClock 60 60 60 60 60 None in
  let smtpCfg := Config.mkSMTPConfig "smtp.example.com" 587 "user" "pass"
                   "from@example.com" in
  let snd := Email.mkSender smtpCfg
               (Email.mkPlainAuth "" "user" "pass" "smtp.example.com")
               "from@example.com" in
  let sendMail := fun _ : Email.SmtpCall => @None string in
  let task := mkScheduledTask "t1" "welcome" [] "Alice" (mkTime 30 "UTC") in
  let s : Scheduler string :=
    New (sendOf sendMail snd) (fun _ _ => Some ("<p>Hi</p>", "Hello"))
      (Rate.mkLimiter (XRate.NewLimiter 600 2) [] [] false false 0) in
  sender s = sendOf sendMail snd
  /\ templates s (Template task) (TaskData task) = Some ("<p>Hi</p>", "Hello")
  /\ Recipients task = []
  /\ 0 < XRate.limit (Rate.limiter (rateLimiter s))
  /\ 0 < XRate.burst (Rate.limiter (rateLimiter s))
  /\ (Rate.CanSend 60 60 60 (rateLimiter s)).1 = true
  /\ (processTask ck "t1" task s).1 = SendFailed.
Proof.
  intros ck smtpCfg snd sendMail task s.
  assert (H1 : sender s = sendOf sendMail snd) by reflexivity.
  assert (H2 : templates s (Template task) (TaskData task)
               = Some ("<p>Hi</p>", "Hello")) by reflexivity.
  assert (H3 : Recipients task = []) by reflexivity.
  assert (H4 : 0 < XRate.limit (Rate.limiter (rateLimiter s)))
    by reflexivity.
  assert (H5 : 0 < XRate.burst (Rate.limiter (rateLimiter s)))
    by reflexivity.
  assert (H6 : (Rate.CanSend (Rate.ck_reserve ck) (Rate.ck_delay ck)
                  (Rate.ck_cancel ck) (rateLimiter s)).1 = true)
    by reflexivity.
  split; [exact H1|]. split; [exact H2|]. split; [exact H3|].
  split; [exact H4|]. split; [exact H5|]. split; [exact H6|].
  exact (proj1 (processTask_no_recipients ck "t1" sendMail snd "<p>Hi</p>"
                  "Hello" task s H1 H2 H3 H4 H5 H6)).
Defined.

(** A witness for [stopped_select_dispatches_nothing]: a scheduler with
    a due task, started and stopped. *)
Lemma stopped_select_witness :
  let clk := fun _ : string => Rate.mkItemClock 60 60 60 60 60 None in
  let s : Scheduler string :=
    Stop (Start
      (Schedule "t3" "welcome" ["a@example.com"] "Alice" (mkTime 0 "Local")
         (New (fun _ _ _ => true) (fun _ _ => None)
            (Rate.mkLimiter (XRate.NewLimiter 600 2) [] [] false false
               0))).2) in
  isRunning s = false
  /\ (processTasks_select true CaseTick 60 clk ["t3"] s).1 = []
  /\ tasks (processTasks_select true CaseTick 60 clk ["t3"] s).2 = tasks s.
Proof.
  intros clk s.
  assert (Hstop : isRunning s = false) by reflexivity.
  split; [exact Hstop|].
  exact (stopped_select_dispatches_nothing true CaseTick 60 clk ["t3"] s Hstop).
Defined.

End SchedulerMore.

(** ** The configuration, the mail sender and the templates *)
Module SetupFacts.

Lemma orZ_idem (x d : Z) : d <> 0 -> Config.orZ (Config.orZ x d) d = Config.orZ x d.
Proof.
  intros Hd. unfold Config.orZ. destruct (Z.eqb_spec x 0) as [->|Hx].
  - destruct (Z.eqb_spec d 0); [contradiction|reflexivity].
  - destruct (Z.eqb_spec x 0); [contradiction|reflexivity].
Qed.

Lemma orS_idem (x d : string) :
  d <> "" -> Config.orS (Config.orS x d) d = Config.orS x d.
Proof.
  intros Hd. unfold Config.orS. destruct (decide (x = "")) as [->|Hx].
  - rewrite decide_False by exact Hd. reflexivity.
  - rewrite decide_False by exact Hx. reflexivity.
Qed.

(** [setDefaults] is idempotent; it fills only fields left at their zero
    value, and never the SMTP user name or password. *)
Theorem setDefaults_idempotent (c : Config.Config) :
  Config.setDefaults (Config.setDefaults c) = Config.setDefaults c
  /\ Config.Username (Config.SMTP (Config.setDefaults c))
     = Config.Username (Config.SMTP c)
  /\ Config.Password (Config.SMTP (Config.setDefaults c))
     = Config.Password (Config.SMTP c)
  /\ (Config.PerHour (Config.RateLimit c) <> 0 ->
      Config.PerHour (Config.RateLimit (Config.setDefaults c))
      = Config.PerHour (Config.RateLimit c))
  /\ (Config.Burst (Config.RateLimit c) <> 0 ->
      Config.Burst (Config.RateLimit (Config.setDefaults c))
      = Config.Burst (Config.RateLimit c))
  /\ (Config.server_Port (Config.Server c) <> 0 ->
      Config.server_Port (Config.Server (Config.setDefaults c))
      = Config.server_Port (Config.Server c)).
Proof.
  split; [|split; [reflexivity|split; [reflexivity|]]].
  - unfold Config.setDefaults. cbn.
    rewrite !orZ_idem, !orS_idem by discriminate. reflexivity.
  - cbn. unfold Config.orZ.
    repeat split; intros Hne; case_Zcmp; congruence.
Qed.

(** A witness for [setDefaults_idempotent]. *)
Lemma setDefaults_idempotent_witness :
  let c := Config.mkConfig (Config.mkServerConfig 9090)
             (Config.mkSMTPConfig "" 0 "user" "pass" "")
             (Config.mkTemplatesConfig "")
             (Config.mkRateLimitConfig 600 0)
             (Config.mkLoggingConfig "" "") in
  Config.PerHour (Config.RateLimit c) <> 0
  /\ Config.PerHour (Config.RateLimit (Config.setDefaults c)) = 600
  /\ Config.Burst (Config.RateLimit (Config.setDefaults c)) = 5.
Proof.
  intros c.
  assert (Hne : Config.PerHour (Config.RateLimit c) <> 0) by discriminate.
  split; [exact Hne|]. split; [|reflexivity].
  destruct (setDefaults_idempotent c) as (_ & _ & _ & Hper & _).
  exact (Hper Hne).
Defined.

(** [Validate] passes exactly on the configurations that meet all of
    its ten requirements. *)
Lemma Validate_None (c : Config.Config) :
  Config.Validate c = None
  <-> 1 <= Config.server_Port (Config.Server c) <= 65535
      /\ Config.Host (Config.SMTP c) <> ""
      /\ 1 <= Config.Port (Config.SMTP c) <= 65535
      /\ Config.Username (Config.SMTP c) <> ""
      /\ Config.Password (Config.SMTP c) <> ""
      /\ Config.FromAddress (Config.SMTP c) <> ""
      /\ Config.Path (Config.Templates c) <> ""
      /\ 1 <= Config.PerHour (Config.RateLimit c)
      /\ 1 <= Config.Burst (Config.RateLimit c)
      /\ Config.Level (Config.Logging c) ∈ ["debug"; "info"; "warn"; "error"].
Proof.
  unfold Config.Validate. rewrite !elem_of_cons, elem_of_nil.
  assert (Hbad : forall (e : Config.ValidateError) (P : Prop),
            ~ P -> Some e = None <-> P)
    by (intros e P HP; split; [discriminate|contradiction]).
  destruct (Z.ltb_spec (Config.server_Port (Config.Server c)) 1);
    [apply Hbad; lia|].
  destruct (Z.ltb_spec 65535 (Config.server_Port (Config.Server c)));
    [apply Hbad; lia|]. cbn [orb].
  destruct (decide (Config.Host (Config.SMTP c) = "")); [apply Hbad; tauto|].
  destruct (Z.ltb_spec (Config.Port (Config.SMTP c)) 1); [apply Hbad; lia|].
  destruct (Z.ltb_spec 65535 (Config.Port (Config.SMTP c)));
    [apply Hbad; lia|]. cbn [orb].
  destruct (decide (Config.Username (Config.SMTP c) = ""));
    [apply Hbad; tauto|].
  destruct (decide (Config.Password (Config.SMTP c) = ""));
    [apply Hbad; tauto|].
  destruct (decide (Config.FromAddress (Config.SMTP c) = ""));
    [apply Hbad; tauto|].
  destruct (decide (Config.Path (Config.Templates c) = ""));
    [apply Hbad; tauto|].
  destruct (Z.ltb_spec (Config.PerHour (Config.RateLimit c)) 1);
    [apply Hbad; lia|].
  destruct (Z.ltb_spec (Config.Burst (Config.RateLimit c)) 1);
    [apply Hbad; lia|].
  destruct (decide (Config.Level (Config.Logging c) = "debug")) as [Hd|Hd];
    [rewrite (bool_decide_eq_false_2 _ (fun Hn => Hn Hd)); cbn [andb];
     split; [intros _; repeat split; first [lia|assumption|tauto]|reflexivity]
    |rewrite (bool_decide_eq_true_2 _ Hd); cbn [andb]].
  destruct (decide (Config.Level (Config.Logging c) = "info")) as [Hi|Hi];
    [rewrite (bool_decide_eq_false_2 _ (fun Hn => Hn Hi)); cbn [andb];
     split; [intros _; repeat split; first [lia|assumption|tauto]|reflexivity]
    |rewrite (bool_decide_eq_true_2 _ Hi); cbn [andb]].
  destruct (decide (Config.Level (Config.Logging c) = "warn")) as [Hw|Hw];
    [rewrite (bool_decide_eq_false_2 _ (fun Hn => Hn Hw)); cbn [andb];
     split; [intros _; repeat split; first [lia|assumption|tauto]|reflexivity]
    |rewrite (bool_decide_eq_true_2 _ Hw); cbn [andb]].
  destruct (decide (Config.Level (Config.Logging c) = "error")) as [He|He];
    [rewrite (bool_decide_eq_false_2 _ (fun Hn => Hn He));
     split; [intros _; repeat split; first [lia|assumption|tauto]|reflexivity]
    |rewrite (bool_decide_eq_true_2 _ He)].
  apply Hbad. tauto.
Qed.

Lemma port_default (x d : Z) :
  1 <= d <= 65535 ->
  1 <= Config.orZ x d <= 65535 <-> x = 0 \/ 1 <= x <= 65535.
Proof. intros Hd. unfold Config.orZ. case_Zcmp; lia. Qed.

Lemma count_default (x d : Z) : 1 <= d -> 1 <= Config.orZ x d <-> 0 <= x.
Proof. intros Hd. unfold Config.orZ. case_Zcmp; lia. Qed.

Lemma text_default (x d : string) : d <> "" -> Config.orS x d <> "".
Proof. intros Hd. unfold Config.orS. case_decide; assumption. Qed.

Lemma level_default (lv : string) :
  Config.orS lv "info" ∈ ["debug"; "info"; "warn"; "error"]
  <-> lv ∈ [""; "debug"; "info"; "warn"; "error"].
Proof.
  unfold Config.orS. rewrite !elem_of_cons, !elem_of_nil.
  case_decide; [subst lv|]; tauto.
Qed.

(** What [Load] accepts, in terms of the file's values: after the
    defaults, [Validate] passes exactly when the two ports are absent
    (zero) or within 1..65535, the SMTP user name and password are
    given, the rate and the burst are not negative, and the log level is
    absent or one of the four names.  A missing host, sender address,
    template path or rate never fails the validation. *)
Theorem Validate_setDefaults (c : Config.Config) :
  Config.Validate (Config.setDefaults c) = None
  <-> (Config.server_Port (Config.Server c) = 0
       \/ 1 <= Config.server_Port (Config.Server c) <= 65535)
      /\ (Config.Port (Config.SMTP c) = 0
          \/ 1 <= Config.Port (Config.SMTP c) <= 65535)
      /\ Config.Username (Config.SMTP c) <> ""
      /\ Config.Password (Config.SMTP c) <> ""
      /\ 0 <= Config.PerHour (Config.RateLimit c)
      /\ 0 <= Config.Burst (Config.RateLimit c)
      /\ Config.Level (Config.Logging c)
           ∈ [""; "debug"; "info"; "warn"; "error"].
Proof.
  rewrite Validate_None. unfold Config.setDefaults.
  cbn [Config.Server Config.SMTP Config.Templates Config.RateLimit
       Config.Logging Config.server_Port Config.Host Config.Port
       Config.Username Config.Password Config.FromAddress Config.Path
       Config.PerHour Config.Burst Config.Level].
  rewrite !port_default, !count_default, level_default by lia.
  pose proof (text_default (Config.Host (Config.SMTP c)) "localhost").
  pose proof (text_default (Config.FromAddress (Config.SMTP c))
                "no-reply@runebird.app").
  pose proof (text_default (Config.Path (Config.Templates c)) "./templates").
  set (L := Config.Level (Config.Logging c)
              ∈ [""; "debug"; "info"; "warn"; "error"]).
  split.
  - intros (?&?&?&?&?&?&?&?&?&?). repeat split; assumption.
  - intros (?&?&?&?&?&?&?). repeat split; try assumption;
      match goal with H : _ -> _ |- _ => apply H; discriminate end.
Qed.

(** Every configuration that [Load] returns lets the program start: it
    passes [Validate], and both [rate.New] and [email.New] accept it,
    the limiter starting stopped with a full bucket of [Burst] tokens
    and an empty queue. *)
Theorem Load_accepted (getenv : string) (readFile : string -> option string)
    (unmarshal : string -> option Config.Config) (c : Config.Config) :
  Config.Load getenv readFile unmarshal = inr c ->
  Config.Validate c = None
  /\ Rate.New (Config.PerHour (Config.RateLimit c))
       (Config.Burst (Config.RateLimit c))
     = inr (Rate.mkLimiter
              (XRate.NewLimiter (Config.PerHour (Config.RateLimit c))
                 (Config.Burst (Config.RateLimit c)))
              [] [] false false 0)
  /\ Email.New (Config.SMTP c)
     = inr (Email.mkSender (Config.SMTP c)
              (Email.mkPlainAuth "" (Config.Username (Config.SMTP c))
                 (Config.Password (Config.SMTP c))
                 (Config.Host (Config.SMTP c)))
              (Config.FromAddress (Config.SMTP c))).
Proof.
  unfold Config.Load.
  destruct (readFile _) as [data|]; [|discriminate].
  destruct (unmarshal data) as [c0|]; [|discriminate].
  destruct (Config.Validate (Config.setDefaults c0)) eqn:Hv; [discriminate|].
  intros [= <-]. split; [exact Hv|].
  apply Validate_None in Hv as (_ & Hh & Hp & Hu & Hpw & Hf & _ & Hr & Hb & _).
  split.
  - unfold Rate.New.
    rewrite (proj2 (Z.leb_gt _ 0)) by lia.
    rewrite (proj2 (Z.leb_gt _ 0)) by lia. reflexivity.
  - unfold Email.New.
    rewrite !bool_decide_eq_false_2 by assumption.
    rewrite (proj2 (Z.eqb_neq _ 0)) by lia. reflexivity.
Qed.

(** A witness for [Load_accepted]: a file that gives only the SMTP user
    name and password. *)
Lemma Load_accepted_witness :
  let c0 := Config.mkConfig (Config.mkServerConfig 0)
              (Config.mkSMTPConfig "" 0 "user" "pass" "")
              (Config.mkTemplatesConfig "")
              (Config.mkRateLimitConfig 0 0)
              (Config.mkLoggingConfig "" "") in
  let readFile := fun path : string =>
    if decide (path = "emailer.yaml") then Some "smtp: ..." else None in
  let unmarshal := fun _ : string => Some c0 in
  Config.Load "" readFile unmarshal = inr (Config.setDefaults c0)
  /\ Config.Validate (Config.setDefaults c0) = None
  /\ Config.PerHour (Config.RateLimit (Config.setDefaults c0)) = 100.
Proof.
  intros c0 readFile unmarshal.
  assert (Hload : Config.Load "" readFile unmarshal
                  = inr (Config.setDefaults c0)) by reflexivity.
  split; [exact Hload|]. split; [|reflexivity].
  exact (proj1 (Load_accepted "" readFile unmarshal _ Hload)).
Defined.

Lemma string_app_assoc (a b c : string) : (a +:+ b) +:+ c = a +:+ (b +:+ c).
Proof.
  induction a as [|x a IH]; [reflexivity|].
  change (String x ((a +:+ b) +:+ c) = String x (a +:+ (b +:+ c))).
  rewrite IH. reflexivity.
Qed.

Lemma join_from (rest : list string) :
  forall first : string,
    foldl (fun result r => result +:+ (", " +:+ r)) first rest
    = String.concat ", " (first :: rest).
Proof.
  induction rest as [|r rest IH]; intros first; cbn [foldl]; [reflexivity|].
  rewrite IH. destruct rest as [|r' rest]; cbn [String.concat].
  - reflexivity.
  - rewrite !string_app_assoc. reflexivity.
Qed.

(** The loop of [joinRecipients] computes the recipients separated by a
    comma and a space: it agrees with [String.concat ", "], and gives the
    empty string for no recipient and the address itself for one. *)
Theorem joinRecipients_concat (recipients : list string) :
  Email.joinRecipients recipients = String.concat ", " recipients.
Proof.
  destruct recipients as [|first rest]; [reflexivity|].
  unfold Email.joinRecipients. apply join_from.
Qed.


(** [Send] makes at most one SMTP call.  Without recipients it fails
    before any call; otherwise it makes exactly one call, to the address
    [host:port] of its configuration, from its sender address, to all
    the recipients at once, with the recipients joined in the [To]
    header, and it fails exactly when that call fails. *)
Theorem Send_calls (sendMail : Email.SmtpCall -> option string)
    (recipients : list string) (subject htmlBody : string)
    (sender : Email.Sender) :
  (recipients = [] ->
     Email.Send sendMail recipients subject htmlBody sender
     = (Some Email.ErrNoRecipients, []))
  /\ (recipients <> [] ->
        exists call,
          (Email.Send sendMail recipients subject htmlBody sender).2 = [call]
          /\ Email.call_to call = recipients
          /\ Email.call_from call = Email.from sender
          /\ Email.call_addr call
             = Config.Host (Email.cfg sender) +:+ ":"
               +:+ pretty (Config.Port (Email.cfg sender))
          /\ (exists rest,
                Email.call_msg call
                = "To: " +:+ String.concat ", " recipients +:+ Email.crlf
                  +:+ rest)
          /\ (Email.Send sendMail recipients subject htmlBody sender).1
             = Email.ErrSendFailed <$> sendMail call).
Proof.
  split; [intros ->; reflexivity|].
  intros Hne. destruct recipients as [|r rest]; [contradiction|].
  unfold Email.Send.
  set (call := Email.mkSmtpCall _ _ _ _ _).
  exists call.
  assert (Hmsg : exists tl,
             Email.call_msg call
             = "To: " +:+ String.concat ", " (r :: rest) +:+ Email.crlf
               +:+ tl).
  { rewrite <- (join_from rest r). eexists. reflexivity. }
  destruct (sendMail call); cbn [fst snd fmap option_fmap option_map];
    (split; [reflexivity|]); (split; [reflexivity|]);
    (split; [reflexivity|]); (split; [reflexivity|]);
    (split; [exact Hmsg|reflexivity]).
Qed.

(** A witness for [Validate_setDefaults]: a file that gives only the
    SMTP user name and password passes. *)
Lemma Validate_setDefaults_witness :
  let c := Config.mkConfig (Config.mkServerConfig 0)
             (Config.mkSMTPConfig "" 0 "user" "pass" "")
             (Config.mkTemplatesConfig "")
             (Config.mkRateLimitConfig 0 0)
             (Config.mkLoggingConfig "" "") in
  Config.Level (Config.Logging c) ∈ [""; "debug"; "info"; "warn"; "error"]
  /\ Config.Validate (Config.setDefaults c) = None.
Proof.
  intros c.
  assert (Hlevel : Config.Level (Config.Logging c)
                     ∈ [""; "debug"; "info"; "warn"; "error"])
    by (repeat constructor).
  assert (Huser : Config.Username (Config.SMTP c) <> "") by discriminate.
  assert (Hpass : Config.Password (Config.SMTP c) <> "") by discriminate.
  assert (Hrate : 0 <= Config.PerHour (Config.RateLimit c)) by reflexivity.
  assert (Hburst : 0 <= Config.Burst (Config.RateLimit c)) by reflexivity.
  split; [exact Hlevel|].
  exact (proj2 (Validate_setDefaults c)
           (conj (or_introl eq_refl)
              (conj (or_introl eq_refl)
                 (conj Huser
                    (conj Hpass (conj Hrate (conj Hburst Hlevel))))))).
Defined.

(** A witness for [Send_calls]: two recipients. *)
Lemma Send_calls_witness :
  let smtpCfg := Config.mkSMTPConfig "smtp.example.com" 587 "user" "pass"
                   "from@example.com" in
  let sender := Email.mkSender smtpCfg
                  (Email.mkPlainAuth "" "user" "pass" "smtp.example.com")
                  "from@example.com" in
  let sendMail := fun _ : Email.SmtpCall => @None string in
  let recipients := ["a@example.com"; "b@example.com"] in
  recipients <> []
  /\ exists call,
       (Email.Send sendMail recipients "Hello" "<p>Hi</p>" sender).2 = [call]
       /\ Email.call_to call = recipients.
Proof.
  intros smtpCfg sender sendMail recipients.
  assert (Hne : recipients <> []) by discriminate.
  split; [exact Hne|].
  destruct (proj2 (Send_calls sendMail recipients "Hello" "<p>Hi</p>" sender)
              Hne) as (call & Hcalls & Hto & _).
  exists call. split; [exact Hcalls|exact Hto].
Defined.

End SetupFacts.

(** ** The handlers of the HTTP server *)
Module ServerFacts.
Import Server.

(** Past its checks, [handleSend] is at the call of [CanSend]. *)
Ltac send_rendered Hm Hd Ht Hrc Hr :=
  unfold handleSend; rewrite Hm, Hd;
  rewrite (bool_decide_eq_true_2 ("POST" = "POST")) by reflexivity;
  cbn [negb];
  rewrite (bool_decide_eq_false_2 _ Ht), (bool_decide_eq_false_2 _ Hrc), Hr.

Ltac schedule_checked Hm Hd Ht Hrc :=
  unfold handleSchedule; rewrite Hm, Hd;
  rewrite (bool_decide_eq_true_2 ("POST" = "POST")) by reflexivity;
  cbn [negb];
  rewrite (bool_decide_eq_false_2 _ Ht), (bool_decide_eq_false_2 _ Hrc).

Lemma Inc_lookup (label : string) (c : gmap string nat) :
  Inc label c !! label = Some (S (default O (c !! label))).
Proof. unfold Inc. apply lookup_insert_eq. Qed.

Lemma wrap64_small (z : Z) : - 2 ^ 63 <= z < 2 ^ 63 -> wrap64 z = z.
Proof. intros Hz. unfold wrap64. rewrite Z.mod_small by lia. lia. Qed.

Lemma sched_id_inj (x y : Z) :
  "sched-" +:+ pretty x = "sched-" +:+ pretty y -> x = y.
Proof.
  intros Heq. apply (inj (String.append "sched-")) in Heq.
  exact (inj pretty _ _ Heq).
Qed.

Section Handlers.
Context {Data : Type}.
Implicit Types (s : Server Data).

(** A request that [handleSend] turns down before it asks the limiter
    makes no SMTP call and leaves the scheduler, the limiter it shares
    and the counter of sent mails as they were.  A method other than
    POST is answered 405 and a missing template name or recipient 400,
    the server unchanged; a body that does not decode is answered 400
    and only logged; a template that does not render is answered 500
    with the error of [Render], is logged, and adds one to the failed
    counter of that template and to no other. *)
Theorem handleSend_rejected (sendMail : Email.SmtpCall -> option string)
    (ck : Rate.ItemClock) (interrupt : option Z)
    (r : Request (SendRequest Data)) s :
  let res := handleSend sendMail ck interrupt r s in
  (Method r <> "POST" -> res = (httpError "Method not allowed" 405, [], s))
  /\ (Method r = "POST" -> Decoded r = None ->
        res = (httpError "Invalid request body" 400, [],
               log LevelError "Failed to decode request body" [] s))
  /\ (forall req : SendRequest Data,
        Method r = "POST" -> Decoded r = Some req ->
        (send_Template req = "" ->
           res = (httpError "Template name is required" 400, [], s))
        /\ (send_Template req <> "" -> send_Recipients req = [] ->
              res = (httpError "At least one recipient is required" 400, [],
                     s))
        /\ (forall err : Templates.error,
              send_Template req <> "" -> send_Recipients req <> [] ->
              Templates.Render (send_Template req) (send_Data req)
                (templates s) = inl err ->
              res.1.1 = httpError ("Failed to render template: "
                                   +:+ Templates.Error err) 500
              /\ res.1.2 = []
              /\ scheduler res.2 = scheduler s
              /\ logger res.2
                 = logger s ++ [mkLog LevelError "Failed to render template"
                                  [send_Template req]]
              /\ emailsSentTotal res.2 = emailsSentTotal s
              /\ emailsFailedTotal res.2 !! send_Template req
                 = Some (S (default O
                              (emailsFailedTotal s !! send_Template req)))
              /\ (forall label : string,
                    label <> send_Template req ->
                    emailsFailedTotal res.2 !! label
                    = emailsFailedTotal s !! label))).
Proof.
  intros res. subst res. unfold handleSend.
  split; [|split].
  - intros Hm. rewrite (bool_decide_eq_false_2 _ Hm). reflexivity.
  - intros Hm Hd. rewrite (bool_decide_eq_true_2 _ Hm), Hd. reflexivity.
  - intros req Hm Hd. rewrite (bool_decide_eq_true_2 _ Hm), Hd. cbn [negb].
    split; [|split].
    + intros Ht. rewrite (bool_decide_eq_true_2 _ Ht). reflexivity.
    + intros Ht Hrc.
      rewrite (bool_decide_eq_false_2 _ Ht), (bool_decide_eq_true_2 _ Hrc).
      reflexivity.
    + intros err Ht Hrc Hr.
      rewrite (bool_decide_eq_false_2 _ Ht), (bool_decide_eq_false_2 _ Hrc).
      rewrite Hr. cbn [fst snd].
      split; [reflexivity|]. split; [reflexivity|]. split; [reflexivity|].
      split; [reflexivity|]. split; [reflexivity|].
      split; [apply Inc_lookup|].
      intros label Hne. cbn [emailsFailedTotal incFailed]. unfold Inc.
      apply lookup_insert_ne. congruence.
Qed.


(** A mail that [handleSend] cannot send at once is answered like one
    it sent.  When [CanSend] refuses, no SMTP call is made and the mail
    goes to the end of the retry queue, due ten seconds after the
    reading of [QueueEmail], under the rendered subject or the default
    one; the answer is still 200 with the success body, and the counter
    of sent mails, not of failed ones, goes up by one. *)
Theorem handleSend_queued (sendMail : Email.SmtpCall -> option string)
    (ck : Rate.ItemClock) (interrupt : option Z)
    (r : Request (SendRequest Data)) (req : SendRequest Data)
    (body subject : string) s :
  Method r = "POST" -> Decoded r = Some req ->
  send_Template req <> "" -> send_Recipients req <> [] ->
  Templates.Render (send_Template req) (send_Data req) (templates s)
  = inr (body, subject) ->
  (Rate.CanSend (Rate.ck_reserve ck) (Rate.ck_delay ck) (Rate.ck_cancel ck)
     (rateLimiter s)).1 = false ->
  let subject' :=
    if decide (subject = "") then
      "Email from RuneBird (" +:+ send_Template req +:+ ")"
    else subject in
  let res := handleSend sendMail ck interrupt r s in
  res.1.1 = mkResponse 200 successBody
  /\ res.1.2 = []
  /\ Rate.queue (rateLimiter res.2)
     = Rate.queue (rateLimiter s)
       ++ [Rate.mkEmailTask (send_Recipients req) subject' body
             (Rate.ck_queue ck + 10 * 1000000000)]
  /\ emailsSentTotal res.2 !! send_Template req
     = Some (S (default O (emailsSentTotal s !! send_Template req)))
  /\ emailsFailedTotal res.2 = emailsFailedTotal s.
Proof.
  intros Hm Hd Ht Hrc Hr Hrefused subject' res.
  destruct (DrainFacts.CanSend_frame (Rate.ck_reserve ck) (Rate.ck_delay ck)
              (Rate.ck_cancel ck) (rateLimiter s)) as (Hq & _).
  subst res. send_rendered Hm Hd Ht Hrc Hr. fold subject'.
  destruct (Rate.CanSend _ _ _ (rateLimiter s)) as [granted l1'] eqn:Hcs.
  cbn [fst snd] in *. subst granted.
  split; [reflexivity|]. split; [reflexivity|].
  split; [|split; [apply Inc_lookup|reflexivity]].
  unfold rateLimiter in *. cbn. rewrite Hq. reflexivity.
Qed.

(** A mail whose SMTP call fails is lost, and its token with it.  When
    [CanSend] grants and [Send] fails, the answer is 500, the counter of
    failed mails goes up by one and the counter of sent mails stays; the
    mail is not put on the retry queue, and the token that [CanSend]
    debited is not given back. *)
Theorem handleSend_send_failed (sendMail : Email.SmtpCall -> option string)
    (ck : Rate.ItemClock) (interrupt : option Z)
    (r : Request (SendRequest Data)) (req : SendRequest Data)
    (body subject : string) (err : Email.error) s :
  Method r = "POST" -> Decoded r = Some req ->
  send_Template req <> "" -> send_Recipients req <> [] ->
  Templates.Render (send_Template req) (send_Data req) (templates s)
  = inr (body, subject) ->
  0 < XRate.limit (Rate.limiter (rateLimiter s)) ->
  0 < XRate.burst (Rate.limiter (rateLimiter s)) ->
  (Rate.CanSend (Rate.ck_reserve ck) (Rate.ck_delay ck) (Rate.ck_cancel ck)
     (rateLimiter s)).1 = true ->
  let subject' :=
    if decide (subject = "") then
      "Email from RuneBird (" +:+ send_Template req +:+ ")"
    else subject in
  (Email.Send sendMail (send_Recipients req) subject' body (sender s)).1
  = Some err ->
  let res := handleSend sendMail ck interrupt r s in
  res.1.1 = httpError ("Failed to send email: " +:+ Email.Error err) 500
  /\ emailsFailedTotal res.2 !! send_Template req
     = Some (S (default O (emailsFailedTotal s !! send_Template req)))
  /\ emailsSentTotal res.2 = emailsSentTotal s
  /\ Rate.queue (rateLimiter res.2) = Rate.queue (rateLimiter s)
  /\ XRate.tokens (Rate.limiter (rateLimiter res.2))
     = XRate.advance (Rate.ck_reserve ck) (Rate.limiter (rateLimiter s))
       - XRate.tokenUnit.
Proof.
  intros Hm Hd Ht Hrc Hr Hlim Hb Hgranted subject' Hfail res.
  destruct (DrainFacts.CanSend_granted _ _ _ _ Hlim Hb Hgranted)
    as (Htk & _).
  destruct (DrainFacts.CanSend_frame (Rate.ck_reserve ck) (Rate.ck_delay ck)
              (Rate.ck_cancel ck) (rateLimiter s)) as (Hq & _).
  subst res. send_rendered Hm Hd Ht Hrc Hr. fold subject'.
  destruct (Rate.CanSend _ _ _ (rateLimiter s)) as [granted l1'] eqn:Hcs.
  cbn [fst snd] in *. subst granted.
  change (sender (set_rateLimiter l1' s)) with (sender s).
  destruct (Email.Send sendMail _ subject' body (sender s))
    as [e calls] eqn:Hsend.
  cbn [fst snd] in Hfail. subst e. cbn [fst snd].
  split; [reflexivity|]. split; [apply Inc_lookup|].
  split; [reflexivity|]. split; [exact Hq|exact Htk].
Qed.

(** What [handleSchedule] turns down leaves no trace.  A POST whose
    body decodes but that lacks a template name or a recipient, or whose
    [SendAt] is the zero time or lies before the clock reading, is
    answered 400, and the server (table of tasks, limiter, counters and
    log) is left as it was. *)
Theorem handleSchedule_rejected (now1 now2 : Z)
    (r : Request (ScheduleRequest Data)) (req : ScheduleRequest Data) s :
  Method r = "POST" -> Decoded r = Some req ->
  (sched_Template req = "" \/ sched_Recipients req = []
   \/ instant (sched_SendAt req) = 0
   \/ instant (sched_SendAt req) < now1) ->
  StatusCode (handleSchedule now1 now2 r s).1 = 400
  /\ (handleSchedule now1 now2 r s).2 = s.
Proof.
  intros Hm Hd Hbad. unfold handleSchedule. rewrite Hm, Hd.
  rewrite (bool_decide_eq_true_2 ("POST" = "POST")) by reflexivity.
  cbn [negb].
  case_bool_decide as Ht; [split; reflexivity|].
  case_bool_decide as Hrc; [split; reflexivity|].
  unfold IsZero.
  destruct (Z.eqb_spec (instant (sched_SendAt req)) 0) as [Hz|Hz];
    [split; reflexivity|].
  destruct (Z.ltb_spec (instant (sched_SendAt req)) now1) as [Hlt|Hge];
    [split; reflexivity|].
  exfalso. destruct Hbad as [Hbad|[Hbad|[Hbad|Hbad]]];
    [contradiction|contradiction|contradiction|lia].
Qed.

(** What [handleSchedule] accepts is stored.  A well-formed request
    whose [SendAt] is not before the clock reading (the reading itself
    is accepted), made when no pending task has the identifier derived
    from the second reading, is answered 200 with that identifier; the
    task is in the table under it, with [SendAt] in UTC; the scheduled
    counter of the template goes up by one and the limiter is not
    touched. *)
Theorem handleSchedule_accepted (now1 now2 : Z)
    (r : Request (ScheduleRequest Data)) (req : ScheduleRequest Data) s :
  Method r = "POST" -> Decoded r = Some req ->
  sched_Template req <> "" -> sched_Recipients req <> [] ->
  instant (sched_SendAt req) <> 0 -> now1 <= instant (sched_SendAt req) ->
  let id := "sched-" +:+ pretty (UnixNano now2) in
  Scheduler.tasks (scheduler s) !! id = None ->
  let res := handleSchedule now1 now2 r s in
  res.1 = mkResponse 200 (scheduledBody id)
  /\ Scheduler.tasks (scheduler res.2)
     = <[id := Scheduler.mkScheduledTask id (sched_Template req)
                 (sched_Recipients req) (sched_Data req)
                 (UTC (sched_SendAt req))]>
         (Scheduler.tasks (scheduler s))
  /\ emailsScheduledTotal res.2 !! sched_Template req
     = Some (S (default O (emailsScheduledTotal s !! sched_Template req)))
  /\ rateLimiter res.2 = rateLimiter s.
Proof.
  intros Hm Hd Ht Hrc Hz Hge id Hfresh res. subst res.
  schedule_checked Hm Hd Ht Hrc. unfold IsZero.
  rewrite (proj2 (Z.eqb_neq _ _) Hz), (proj2 (Z.ltb_ge _ _) Hge).
  fold id. unfold Scheduler.Schedule. rewrite Hfresh.
  cbn [fst snd]. split; [reflexivity|]. split; [reflexivity|].
  split; [apply Inc_lookup|reflexivity].
Qed.

(** The identifier of a scheduled mail is the clock reading, so two
    requests handled at one reading collide.  After an accepted request,
    a second well-formed request whose identifier is made of the same
    reading is answered 500; its mail is not stored and not counted, and
    the first task stays as it was. *)
Theorem handleSchedule_same_reading (now1 now1' now2 : Z)
    (r r' : Request (ScheduleRequest Data))
    (req req' : ScheduleRequest Data) s :
  Method r = "POST" -> Decoded r = Some req ->
  sched_Template req <> "" -> sched_Recipients req <> [] ->
  instant (sched_SendAt req) <> 0 -> now1 <= instant (sched_SendAt req) ->
  Method r' = "POST" -> Decoded r' = Some req' ->
  sched_Template req' <> "" -> sched_Recipients req' <> [] ->
  instant (sched_SendAt req') <> 0 -> now1' <= instant (sched_SendAt req') ->
  let id := "sched-" +:+ pretty (UnixNano now2) in
  Scheduler.tasks (scheduler s) !! id = None ->
  let s1 := (handleSchedule now1 now2 r s).2 in
  let res := handleSchedule now1' now2 r' s1 in
  StatusCode res.1 = 500
  /\ Scheduler.tasks (scheduler res.2) = Scheduler.tasks (scheduler s1)
  /\ Scheduler.tasks (scheduler res.2) !! id
     = Some (Scheduler.mkScheduledTask id (sched_Template req)
               (sched_Recipients req) (sched_Data req)
               (UTC (sched_SendAt req)))
  /\ emailsScheduledTotal res.2 = emailsScheduledTotal s1.
Proof.
  intros Hm Hd Ht Hrc Hz Hge Hm' Hd' Ht' Hrc' Hz' Hge' id Hfresh s1 res.
  assert (Hs1 : Scheduler.tasks (scheduler s1) !! id
                = Some (Scheduler.mkScheduledTask id (sched_Template req)
                          (sched_Recipients req) (sched_Data req)
                          (UTC (sched_SendAt req)))).
  { subst s1. schedule_checked Hm Hd Ht Hrc. unfold IsZero.
    rewrite (proj2 (Z.eqb_neq _ _) Hz), (proj2 (Z.ltb_ge _ _) Hge).
    fold id. unfold Scheduler.Schedule. rewrite Hfresh.
    cbn [snd]. apply lookup_insert_eq. }
  assert (Hres : StatusCode res.1 = 500
                 /\ Scheduler.tasks (scheduler res.2)
                    = Scheduler.tasks (scheduler s1)
                 /\ emailsScheduledTotal res.2 = emailsScheduledTotal s1).
  { subst res. schedule_checked Hm' Hd' Ht' Hrc'. unfold IsZero.
    rewrite (proj2 (Z.eqb_neq _ _) Hz'), (proj2 (Z.ltb_ge _ _) Hge').
    fold id. unfold Scheduler.Schedule. rewrite Hs1.
    repeat split; reflexivity. }
  destruct Hres as (Hcode & Htasks & Hcount).
  split; [exact Hcode|]. split; [exact Htasks|].
  split; [rewrite Htasks; exact Hs1|exact Hcount].
Qed.

(** Two requests handled at different clock readings, both between the
    years 1678 and 2262 where [UnixNano] does not wrap around, get
    different identifiers: accepted one after the other on a table that
    has neither identifier, both tasks are pending afterwards. *)
Theorem handleSchedule_distinct_readings (now1 now1' now2 now2' : Z)
    (r r' : Request (ScheduleRequest Data))
    (req req' : ScheduleRequest Data) s :
  Method r = "POST" -> Decoded r = Some req ->
  sched_Template req <> "" -> sched_Recipients req <> [] ->
  instant (sched_SendAt req) <> 0 -> now1 <= instant (sched_SendAt req) ->
  Method r' = "POST" -> Decoded r' = Some req' ->
  sched_Template req' <> "" -> sched_Recipients req' <> [] ->
  instant (sched_SendAt req') <> 0 -> now1' <= instant (sched_SendAt req') ->
  - 2 ^ 63 <= now2 - unixToInternal * 1000000000 < 2 ^ 63 ->
  - 2 ^ 63 <= now2' - unixToInternal * 1000000000 < 2 ^ 63 ->
  now2 <> now2' ->
  let id := "sched-" +:+ pretty (UnixNano now2) in
  let id' := "sched-" +:+ pretty (UnixNano now2') in
  Scheduler.tasks (scheduler s) !! id = None ->
  Scheduler.tasks (scheduler s) !! id' = None ->
  let s1 := (handleSchedule now1 now2 r s).2 in
  let res := handleSchedule now1' now2' r' s1 in
  id <> id'
  /\ StatusCode res.1 = 200
  /\ Scheduler.tasks (scheduler res.2) !! id
     = Some (Scheduler.mkScheduledTask id (sched_Template req)
               (sched_Recipients req) (sched_Data req)
               (UTC (sched_SendAt req)))
  /\ Scheduler.tasks (scheduler res.2) !! id'
     = Some (Scheduler.mkScheduledTask id' (sched_Template req')
               (sched_Recipients req') (sched_Data req')
               (UTC (sched_SendAt req'))).
Proof.
  intros Hm Hd Ht Hrc Hz Hge Hm' Hd' Ht' Hrc' Hz' Hge' Hin Hin' Hne
    id id' Hfresh Hfresh' s1 res.
  assert (Hid : id <> id').
  { intros Heq. apply sched_id_inj in Heq. unfold UnixNano in Heq.
    rewrite !wrap64_small in Heq by assumption. lia. }
  assert (Hs1 : Scheduler.tasks (scheduler s1)
                = <[id := Scheduler.mkScheduledTask id (sched_Template req)
                            (sched_Recipients req) (sched_Data req)
                            (UTC (sched_SendAt req))]>
                    (Scheduler.tasks (scheduler s))).
  { subst s1. schedule_checked Hm Hd Ht Hrc. unfold IsZero.
    rewrite (proj2 (Z.eqb_neq _ _) Hz), (proj2 (Z.ltb_ge _ _) Hge).
    fold id. unfold Scheduler.Schedule. rewrite Hfresh. reflexivity. }
  assert (Hfresh1 : Scheduler.tasks (scheduler s1) !! id' = None).
  { rewrite Hs1, lookup_insert_ne by exact Hid. exact Hfresh'. }
  assert (Hres : res.1 = mkResponse 200 (scheduledBody id')
                 /\ Scheduler.tasks (scheduler res.2)
                    = <[id' := Scheduler.mkScheduledTask id'
                                 (sched_Template req') (sched_Recipients req')
                                 (sched_Data req') (UTC (sched_SendAt req'))]>
                        (Scheduler.tasks (scheduler s1))).
  { subst res. schedule_checked Hm' Hd' Ht' Hrc'. unfold IsZero.
    rewrite (proj2 (Z.eqb_neq _ _) Hz'), (proj2 (Z.ltb_ge _ _) Hge').
    fold id'. unfold Scheduler.Schedule. rewrite Hfresh1.
    split; reflexivity. }
  destruct Hres as [Hresp Htasks].
  split; [exact Hid|]. split; [rewrite Hresp; reflexivity|].
  rewrite Htasks. split.
  - rewrite lookup_insert_ne by (intros Heq; apply Hid; symmetry; exact Heq).
    rewrite Hs1. apply lookup_insert_eq.
  - apply lookup_insert_eq.
Qed.

End Handlers.

(** A witness for [handleSend_rejected]: a request for a template that
    the manager does not have. *)
Lemma handleSend_rejected_witness :
  let smtpCfg := Config.mkSMTPConfig "smtp.example.com" 587 "user" "pass"
                   "from@example.com" in
  let snd := Email.mkSender smtpCfg
               (Email.mkPlainAuth "" "user" "pass" "smtp.example.com")
               "from@example.com" in
  let tmpl : Templates.Template string :=
    Templates.mkTemplate (fun name => inr ("<p>Hi " +:+ name +:+ "</p>"))
      None in
  let tm := Templates.mkTemplateManager (<["welcome" := tmpl]> ∅) in
  let sendMail := fun _ : Email.SmtpCall => @None string in
  let s : Server string :=
    mkServer [] snd tm
      (Scheduler.New (sendOf sendMail snd) (renderOf tm)
         (Rate.mkLimiter (XRate.NewLimiter 600 2) [] [] false false 0))
      ∅ ∅ ∅ in
  let ck := Rate.mkItemClock 60 60 60 60 60 None in
  let req := mkSendRequest "nonexistent" ["a@example.com"] "Alice" in
  let r := mkRequest "POST" (Some req) in
  Templates.Render "nonexistent" "Alice" (templates s)
  = inl (Templates.ErrNotFound "nonexistent")
  /\ StatusCode (handleSend sendMail ck None r s).1.1 = 500
  /\ (handleSend sendMail ck None r s).1.2 = []
  /\ scheduler (handleSend sendMail ck None r s).2 = scheduler s
  /\ emailsFailedTotal (handleSend sendMail ck None r s).2 !! "nonexistent"
     = Some 1%nat.
Proof.
  intros smtpCfg snd tmpl tm sendMail s ck req r.
  assert (Hr : Templates.Render (send_Template req) (send_Data req)
                 (templates s) = inl (Templates.ErrNotFound "nonexistent"))
    by reflexivity.
  assert (Ht : send_Template req <> "") by discriminate.
  assert (Hrc : send_Recipients req <> []) by discriminate.
  split; [exact Hr|].
  destruct (handleSend_rejected sendMail ck None r s) as (_ & _ & Hreq).
  destruct (Hreq req eq_refl eq_refl) as (_ & _ & Hrender).
  destruct (Hrender _ Ht Hrc Hr) as (Hresp & Hcalls & Hsched & _ & _ & Hfail & _).
  split; [rewrite Hresp; reflexivity|]. split; [exact Hcalls|].
  split; [exact Hsched|exact Hfail].
Defined.


(** A witness for [handleSend_queued]: an empty bucket. *)
Lemma handleSend_queued_witness :
  let smtpCfg := Config.mkSMTPConfig "smtp.example.com" 587 "user" "pass"
                   "from@example.com" in
  let snd := Email.mkSender smtpCfg
               (Email.mkPlainAuth "" "user" "pass" "smtp.example.com")
               "from@example.com" in
  let tmpl : Templates.Template string :=
    Templates.mkTemplate (fun name => inr ("<p>Hi " +:+ name +:+ "</p>"))
      None in
  let tm := Templates.mkTemplateManager (<["welcome" := tmpl]> ∅) in
  let sendMail := fun _ : Email.SmtpCall => @None string in
  let s : Server string :=
    mkServer [] snd tm
      (Scheduler.New (sendOf sendMail snd) (renderOf tm)
         (Rate.mkLimiter (XRate.mkLimiter 600 2 0 60 60) [] [] false false 0))
      ∅ ∅ ∅ in
  let ck := Rate.mkItemClock 60 60 60 60 60 None in
  let req := mkSendRequest "welcome" ["a@example.com"] "Alice" in
  let r := mkRequest "POST" (Some req) in
  (Rate.CanSend 60 60 60 (rateLimiter s)).1 = false
  /\ (handleSend sendMail ck None r s).1.1 = mkResponse 200 successBody
  /\ Rate.queue (rateLimiter (handleSend sendMail ck None r s).2)
     = [Rate.mkEmailTask ["a@example.com"] "Email from RuneBird (welcome)"
          "<p>Hi Alice</p>" (60 + 10 * 1000000000)].
Proof.
  intros smtpCfg snd tmpl tm sendMail s ck req r.
  assert (Hm : Method r = "POST") by reflexivity.
  assert (Hd : Decoded r = Some req) by reflexivity.
  assert (Ht : send_Template req <> "") by discriminate.
  assert (Hrc : send_Recipients req <> []) by discriminate.
  assert (Hr : Templates.Render (send_Template req) (send_Data req)
                 (templates s) = inr ("<p>Hi Alice</p>", ""))
    by reflexivity.
  assert (Hrefused : (Rate.CanSend (Rate.ck_reserve ck) (Rate.ck_delay ck)
                        (Rate.ck_cancel ck) (rateLimiter s)).1 = false)
    by reflexivity.
  split; [exact Hrefused|].
  destruct (handleSend_queued sendMail ck None r req "<p>Hi Alice</p>" "" s
              Hm Hd Ht Hrc Hr Hrefused) as (Hresp & _ & Hq & _).
  split; [exact Hresp|exact Hq].
Defined.

(** A witness for [handleSend_send_failed]: an SMTP server that refuses
    the connection. *)
Lemma handleSend_send_failed_witness :
  let smtpCfg := Config.mkSMTPConfig "smtp.example.com" 587 "user" "pass"
                   "from@example.com" in
  let snd := Email.mkSender smtpCfg
               (Email.mkPlainAuth "" "user" "pass" "smtp.example.com")
               "from@example.com" in
  let tmpl : Templates.Template string :=
    Templates.mkTemplate (fun name => inr ("<p>Hi " +:+ name +:+ "</p>"))
      None in
  let tm := Templates.mkTemplateManager (<["welcome" := tmpl]> ∅) in
  let sendMail := fun _ : Email.SmtpCall => Some "connection refused" in
  let s : Server string :=
    mkServer [] snd tm
      (Scheduler.New (sendOf sendMail snd) (renderOf tm)
         (Rate.mkLimiter (XRate.NewLimiter 600 2) [] [] false false 0))
      ∅ ∅ ∅ in
  let ck := Rate.mkItemClock 100 100 100 100 100 None in
  let req := mkSendRequest "welcome" ["a@example.com"] "Alice" in
  let r := mkRequest "POST" (Some req) in
  (Rate.CanSend 100 100 100 (rateLimiter s)).1 = true
  /\ StatusCode (handleSend sendMail ck None r s).1.1 = 500
  /\ Rate.queue (rateLimiter (handleSend sendMail ck None r s).2) = []
  /\ XRate.tokens (Rate.limiter (rateLimiter (handleSend sendMail ck None r
                                                s).2))
     = XRate.advance 100 (Rate.limiter (rateLimiter s)) - XRate.tokenUnit.
Proof.
  intros smtpCfg snd tmpl tm sendMail s ck req r.
  assert (Hm : Method r = "POST") by reflexivity.
  assert (Hd : Decoded r = Some req) by reflexivity.
  assert (Ht : send_Template req <> "") by discriminate.
  assert (Hrc : send_Recipients req <> []) by discriminate.
  assert (Hr : Templates.Render (send_Template req) (send_Data req)
                 (templates s) = inr ("<p>Hi Alice</p>", ""))
    by reflexivity.
  assert (Hlim : 0 < XRate.limit (Rate.limiter (rateLimiter s)))
    by reflexivity.
  assert (Hb : 0 < XRate.burst (Rate.limiter (rateLimiter s)))
    by reflexivity.
  assert (Hgranted : (Rate.CanSend (Rate.ck_reserve ck) (Rate.ck_delay ck)
                        (Rate.ck_cancel ck) (rateLimiter s)).1 = true)
    by reflexivity.
  assert (Hfail : (Email.Send sendMail (send_Recipients req)
                     (if decide ("" = "") then
                        "Email from RuneBird (" +:+ send_Template req +:+ ")"
                      else "")
                     "<p>Hi Alice</p>" (sender s)).1
                  = Some (Email.ErrSendFailed "connection refused"))
    by reflexivity.
  split; [exact Hgranted|].
  destruct (handleSend_send_failed sendMail ck None r req "<p>Hi Alice</p>"
              "" (Email.ErrSendFailed "connection refused") s
              Hm Hd Ht Hrc Hr Hlim Hb Hgranted Hfail)
    as (Hresp & _ & _ & Hq & Htokens).
  split; [rewrite Hresp; reflexivity|]. split; [exact Hq|exact Htokens].
Defined.

(** A witness for [handleSchedule_rejected]: a request without
    [send_at], whose [SendAt] decodes to the zero time. *)
Lemma handleSchedule_rejected_witness :
  let smtpCfg := Config.mkSMTPConfig "smtp.example.com" 587 "user" "pass"
                   "from@example.com" in
  let snd := Email.mkSender smtpCfg
               (Email.mkPlainAuth "" "user" "pass" "smtp.example.com")
               "from@example.com" in
  let tmpl : Templates.Template string :=
    Templates.mkTemplate (fun name => inr ("<p>Hi " +:+ name +:+ "</p>"))
      None in
  let tm := Templates.mkTemplateManager (<["welcome" := tmpl]> ∅) in
  let sendMail := fun _ : Email.SmtpCall => @None string in
  let s : Server string :=
    mkServer [] snd tm
      (Scheduler.New (sendOf sendMail snd) (renderOf tm)
         (Rate.mkLimiter (XRate.NewLimiter 600 2) [] [] false false 0))
      ∅ ∅ ∅ in
  let req := mkScheduleRequest "welcome" ["a@example.com"] (mkTime 0 "UTC")
               "Alice" in
  let r := mkRequest "POST" (Some req) in
  instant (sched_SendAt req) = 0
  /\ StatusCode (handleSchedule 100 100 r s).1 = 400
  /\ (handleSchedule 100 100 r s).2 = s.
Proof.
  intros smtpCfg snd tmpl tm sendMail s req r.
  assert (Hz : instant (sched_SendAt req) = 0) by reflexivity.
  split; [exact Hz|].
  exact (handleSchedule_rejected 100 100 r req s eq_refl eq_refl
           (or_intror (or_intror (or_introl Hz)))).
Defined.

(** A witness for [handleSchedule_accepted]: a [SendAt] equal to the
    clock reading. *)
Lemma handleSchedule_accepted_witness :
  let smtpCfg := Config.mkSMTPConfig "smtp.example.com" 587 "user" "pass"
                   "from@example.com" in
  let snd := Email.mkSender smtpCfg
               (Email.mkPlainAuth "" "user" "pass" "smtp.example.com")
               "from@example.com" in
  let tmpl : Templates.Template string :=
    Templates.mkTemplate (fun name => inr ("<p>Hi " +:+ name +:+ "</p>"))
      None in
  let tm := Templates.mkTemplateManager (<["welcome" := tmpl]> ∅) in
  let sendMail := fun _ : Email.SmtpCall => @None string in
  let s : Server string :=
    mkServer [] snd tm
      (Scheduler.New (sendOf sendMail snd) (renderOf tm)
         (Rate.mkLimiter (XRate.NewLimiter 600 2) [] [] false false 0))
      ∅ ∅ ∅ in
  let req := mkScheduleRequest "welcome" ["a@example.com"]
               (mkTime 100 "Local") "Alice" in
  let r := mkRequest "POST" (Some req) in
  100 <= instant (sched_SendAt req)
  /\ Scheduler.tasks (scheduler s) !! ("sched-" +:+ pretty (UnixNano 100))
     = None
  /\ StatusCode (handleSchedule 100 100 r s).1 = 200
  /\ rateLimiter (handleSchedule 100 100 r s).2 = rateLimiter s.
Proof.
  intros smtpCfg snd tmpl tm sendMail s req r.
  assert (Ht : sched_Template req <> "") by discriminate.
  assert (Hrc : sched_Recipients req <> []) by discriminate.
  assert (Hz : instant (sched_SendAt req) <> 0) by discriminate.
  assert (Hge : 100 <= instant (sched_SendAt req)) by (cbn; lia).
  assert (Hfresh : Scheduler.tasks (scheduler s)
                     !! ("sched-" +:+ pretty (UnixNano 100)) = None)
    by (apply lookup_empty).
  split; [exact Hge|]. split; [exact Hfresh|].
  destruct (handleSchedule_accepted 100 100 r req s eq_refl eq_refl Ht Hrc Hz
              Hge Hfresh) as (Hresp & _ & _ & Hrl).
  split; [rewrite Hresp; reflexivity|exact Hrl].
Defined.

(** A witness for [handleSchedule_same_reading]: two requests handled at
    the reading 100. *)
Lemma handleSchedule_same_reading_witness :
  let smtpCfg := Config.mkSMTPConfig "smtp.example.com" 587 "user" "pass"
                   "from@example.com" in
  let snd := Email.mkSender smtpCfg
               (Email.mkPlainAuth "" "user" "pass" "smtp.example.com")
               "from@example.com" in
  let tmpl : Templates.Template string :=
    Templates.mkTemplate (fun name => inr ("<p>Hi " +:+ name +:+ "</p>"))
      None in
  let tm := Templates.mkTemplateManager (<["welcome" := tmpl]> ∅) in
  let sendMail := fun _ : Email.SmtpCall => @None string in
  let s : Server string :=
    mkServer [] snd tm
      (Scheduler.New (sendOf sendMail snd) (renderOf tm)
         (Rate.mkLimiter (XRate.NewLimiter 600 2) [] [] false false 0))
      ∅ ∅ ∅ in
  let req := mkScheduleRequest "welcome" ["a@example.com"]
               (mkTime 200 "UTC") "Alice" in
  let req' := mkScheduleRequest "welcome" ["b@example.com"]
                (mkTime 300 "UTC") "Bob" in
  let r := mkRequest "POST" (Some req) in
  let r' := mkRequest "POST" (Some req') in
  Scheduler.tasks (scheduler s) !! ("sched-" +:+ pretty (UnixNano 100))
  = None
  /\ StatusCode
       (handleSchedule 100 100 r' (handleSchedule 100 100 r s).2).1 = 500.
Proof.
  intros smtpCfg snd tmpl tm sendMail s req req' r r'.
  assert (Ht : sched_Template req <> "") by discriminate.
  assert (Hrc : sched_Recipients req <> []) by discriminate.
  assert (Hz : instant (sched_SendAt req) <> 0) by discriminate.
  assert (Hge : 100 <= instant (sched_SendAt req)) by (cbn; lia).
  assert (Ht' : sched_Template req' <> "") by discriminate.
  assert (Hrc' : sched_Recipients req' <> []) by discriminate.
  assert (Hz' : instant (sched_SendAt req') <> 0) by discriminate.
  assert (Hge' : 100 <= instant (sched_SendAt req')) by (cbn; lia).
  assert (Hfresh : Scheduler.tasks (scheduler s)
                     !! ("sched-" +:+ pretty (UnixNano 100)) = None)
    by (apply lookup_empty).
  split; [exact Hfresh|].
  exact (proj1 (handleSchedule_same_reading 100 100 100 r r' req req' s
                  eq_refl eq_refl Ht Hrc Hz Hge eq_refl eq_refl Ht' Hrc' Hz'
                  Hge' Hfresh)).
Defined.

(** A witness for [handleSchedule_distinct_readings]: two requests
    handled one nanosecond apart, in November 2023. *)
Lemma handleSchedule_distinct_readings_witness :
  let smtpCfg := Config.mkSMTPConfig "smtp.example.com" 587 "user" "pass"
                   "from@example.com" in
  let snd := Email.mkSender smtpCfg
               (Email.mkPlainAuth "" "user" "pass" "smtp.example.com")
               "from@example.com" in
  let tmpl : Templates.Template string :=
    Templates.mkTemplate (fun name => inr ("<p>Hi " +:+ name +:+ "</p>"))
      None in
  let tm := Templates.mkTemplateManager (<["welcome" := tmpl]> ∅) in
  let sendMail := fun _ : Email.SmtpCall => @None string in
  let s : Server string :=
    mkServer [] snd tm
      (Scheduler.New (sendOf sendMail snd) (renderOf tm)
         (Rate.mkLimiter (XRate.NewLimiter 600 2) [] [] false false 0))
      ∅ ∅ ∅ in
  let now := unixToInternal * 1000000000 + 1700000000000000000 in
  let req := mkScheduleRequest "welcome" ["a@example.com"]
               (mkTime (now + 200) "UTC") "Alice" in
  let req' := mkScheduleRequest "welcome" ["b@example.com"]
                (mkTime (now + 300) "UTC") "Bob" in
  let r := mkRequest "POST" (Some req) in
  let r' := mkRequest "POST" (Some req') in
  - 2 ^ 63 <= now - unixToInternal * 1000000000 < 2 ^ 63
  /\ - 2 ^ 63 <= now + 1 - unixToInternal * 1000000000 < 2 ^ 63
  /\ StatusCode
       (handleSchedule now (now + 1) r' (handleSchedule now now r s).2).1
     = 200.
Proof.
  intros smtpCfg snd tmpl tm sendMail s now req req' r r'.
  assert (Ht : sched_Template req <> "") by discriminate.
  assert (Hrc : sched_Recipients req <> []) by discriminate.
  assert (Hz : instant (sched_SendAt req) <> 0) by (cbn; unfold now; lia).
  assert (Hge : now <= instant (sched_SendAt req)) by (cbn; lia).
  assert (Ht' : sched_Template req' <> "") by discriminate.
  assert (Hrc' : sched_Recipients req' <> []) by discriminate.
  assert (Hz' : instant (sched_SendAt req') <> 0) by (cbn; unfold now; lia).
  assert (Hge' : now <= instant (sched_SendAt req')) by (cbn; lia).
  assert (Hin : - 2 ^ 63 <= now - unixToInternal * 1000000000 < 2 ^ 63)
    by (unfold now, unixToInternal; lia).
  assert (Hin' : - 2 ^ 63 <= now + 1 - unixToInternal * 1000000000 < 2 ^ 63)
    by (unfold now, unixToInternal; lia).
  assert (Hne : now <> now + 1) by lia.
  split; [exact Hin|]. split; [exact Hin'|].
  exact (proj1 (proj2 (handleSchedule_distinct_readings now now now (now + 1)
                         r r' req req' s eq_refl eq_refl Ht Hrc Hz Hge
                         eq_refl eq_refl Ht' Hrc' Hz' Hge' Hin Hin' Hne
                         (lookup_empty _) (lookup_empty _)))).
Defined.

End ServerFacts.

(** ** The bucket in binary64: when [CanSend] grants and [ConsumeToken]
    blocks *)
Module Binary64Facts.
Import XRate64 Rate64.
















End Binary64Facts.
